(** * pdf-epub-to-txt: the conversion functions of [app.py] and the
      session state of its Streamlit page, embedded in Rocq.

    The three helpers [epub_to_text], [pdf_to_text] and [pdf_ocr] drive
    external libraries (tempfile/os, ebooklib, BeautifulSoup, PyMuPDF, PIL,
    pytesseract).  The libraries are not part of the program: what they
    answer is a parameter of the model (a record of oracles), what the
    program does with the answers is translated statement by statement.
    Python exceptions are an explicit error result, the file system and the
    progress sink are explicit state. *)

From stdpp Require Import gmap strings list fin_maps pretty.
From Stdlib Require Import QArith Qabs SpecFloat.

Close Scope Q_scope.
Open Scope string_scope.

(** ** Python values *)

Abbreviation bytes := (list Byte.byte).

Global Instance byte_eq_dec : EqDecision Byte.byte := Byte.byte_eq_dec.

(** The line feed, written [\n] in the source. *)
Definition nl : string := String (Ascii.ascii_of_nat 10) EmptyString.

(** [str(n)] and [f"{n}"] for an [int]. *)
Definition str_int (n : Z) : string := pretty n.

(** What a decimal numeral denotes, in the form Python writes an [int]:
    read digit by digit from the left. *)
Definition digit_value (c : Ascii.ascii) : option Z :=
  let n := Z.of_nat (Ascii.nat_of_ascii c) in
  if (48 <=? n)%Z && (n <=? 57)%Z then Some (n - 48)%Z else None.

(** A string of digits; [acc] is the value of the digits already read. *)
Fixpoint digits_value (acc : Z) (s : string) : option Z :=
  match s with
  | EmptyString => Some acc
  | String c rest =>
      match digit_value c with
      | Some d => digits_value (10 * acc + d) rest
      | None => None
      end
  end.

(** A numeral of a natural number: at least one digit, and no leading zero
    except in [0] itself. *)
Definition numeral_value (s : string) : option Z :=
  match s with
  | EmptyString => None
  | String c rest =>
      if Ascii.eqb c (Ascii.ascii_of_nat 48) then
        match rest with EmptyString => Some 0%Z | String _ _ => None end
      else digits_value 0 s
  end.

(** A numeral of an integer: a minus sign in front of the numeral of a
    negative number, no sign otherwise. *)
Definition decimal_value (s : string) : option Z :=
  match s with
  | EmptyString => None
  | String c rest =>
      if Ascii.eqb c (Ascii.ascii_of_nat 45) then
        match numeral_value rest with
        | Some n => if (n =? 0)%Z then None else Some (- n)%Z
        | None => None
        end
      else numeral_value s
  end.

(** [s * n] for a [str] and an [int]: no copy at all when [n <= 0]. *)
Fixpoint str_repeat (s : string) (n : nat) : string :=
  match n with
  | O => ""
  | S k => s ++ str_repeat s k
  end.

Definition str_mul (s : string) (n : Z) : string := str_repeat s (Z.to_nat n).

(** [sep.join(l)]. *)
Fixpoint join (sep : string) (l : list string) : string :=
  match l with
  | [] => ""
  | [x] => x
  | x :: rest => x ++ sep ++ join sep rest
  end.

(** The concatenation of a list of strings. *)
Definition concat_all (l : list string) : string := foldr String.append "" l.

(** Truthiness of a [str]: [""] is false, everything else true. *)
Definition str_truthy (s : string) : bool :=
  match s with
  | EmptyString => false
  | String _ _ => true
  end.

(** [enumerate(l)]. *)
Fixpoint enumerate_from {A} (i : nat) (l : list A) : list (nat * A) :=
  match l with
  | [] => []
  | x :: rest => (i, x) :: enumerate_from (S i) rest
  end.

Definition enumerate {A} (l : list A) : list (nat * A) := enumerate_from 0 l.

(** ** Exceptions

    Only subclasses of [Exception] are modelled: they are what the
    libraries raise and what [except Exception] catches.  An exception is
    its class name and [str(e)]. *)

Record Exn := mkExn { exn_class : string; exn_str : string }.

Inductive result (A : Type) : Type :=
| Return (a : A)
| Raise (e : Exn).
Arguments Return {A} a.
Arguments Raise {A} e.

Definition ZeroDivisionError : Exn := mkExn "ZeroDivisionError" "division by zero".
Definition FileNotFoundError (path : string) : Exn :=
  mkExn "FileNotFoundError" ("[Errno 2] No such file or directory: '" ++ path ++ "'").
Definition FileExistsError : Exn :=
  mkExn "FileExistsError" "[Errno 17] No usable temporary file name found".

Definition OverflowError : Exn :=
  mkExn "OverflowError" "integer division result too large for a float".

(** ** Floats

    A Python [float] is a double.  A finite double is a rational number,
    and the model keeps it as that number, in lowest terms. *)

(** The integer nearest to [n / d] (for [0 <= n] and [0 < d]), a tie going
    to the even one. *)
Definition round_half_even (n d : Z) : Z :=
  let q := (n / d)%Z in
  let r := (n mod d)%Z in
  if (2 * r <? d)%Z then q
  else if (d <? 2 * r)%Z then (q + 1)%Z
  else if Z.even q then q else (q + 1)%Z.

(** The binade of [a / b] (for [0 < a] and [0 < b]): the [e] with
    [2^e <= a / b < 2^(e+1)]. *)
Definition binade (a b : Z) : Z :=
  let e := (Z.log2 a - Z.log2 b)%Z in
  if (b * 2 ^ Z.max 0 e <=? a * 2 ^ Z.max 0 (- e))%Z then e else (e - 1)%Z.

(** The double nearest to [a / b] (for [0 < a] and [0 < b]), ties to even,
    as a significand [m] of at most 53 bits and the exponent [u] of its last
    bit: the value is [m * 2^u].  Below [2^-1022] doubles are subnormal and
    the last bit stays at [2^-1074]. *)
Definition nearest_double (a b : Z) : Z * Z :=
  let u := Z.max (binade a b - 52) (-1074) in
  (round_half_even (a * 2 ^ Z.max 0 (- u)) (b * 2 ^ Z.max 0 u), u).

(** [a / b] on two [int]s: the double nearest to the exact quotient (the
    division of two [int]s is correctly rounded in CPython);
    [ZeroDivisionError] for [b = 0], [OverflowError] when the quotient is
    beyond the doubles. *)
Definition truediv (a b : Z) : result Q :=
  if (b =? 0)%Z then Raise ZeroDivisionError
  else if (a =? 0)%Z then Return 0%Q
  else
    let '(m, u) := nearest_double (Z.abs a) (Z.abs b) in
    if (0 <=? u)%Z && (2 ^ 1024 <=? m * 2 ^ u)%Z then Raise OverflowError
    else Return (Qred (Z.sgn a * Z.sgn b * m * 2 ^ Z.max 0 u
                       # Z.to_pos (2 ^ Z.max 0 (- u)))).

(** The value of [a / b] where the division returns one. *)
Definition quotient (a b : Z) : Q :=
  match truediv a b with
  | Return v => v
  | Raise _ => 0%Q
  end.


(** The same division through the IEEE 754 operations of the Standard
    Library ([SpecFloat], binary64): both operands converted, then divided.
    It agrees with [a / b] as long as both operands are doubles. *)
Definition Q_of_spec_float (f : spec_float) : option Q :=
  match f with
  | S754_zero _ => Some 0%Q
  | S754_finite s m e =>
      Some (Qred ((if s then -1 else 1) * Z.pos m * 2 ^ Z.max 0 e
                  # Z.to_pos (2 ^ Z.max 0 (- e))))
  | S754_infinity _ | S754_nan => None
  end.

Definition binary64_of_Z (n : Z) : spec_float :=
  binary_normalize 53 1024 n 0 false.

Definition binary64_div (a b : Z) : option Q :=
  Q_of_spec_float (SFdiv 53 1024 (binary64_of_Z a) (binary64_of_Z b)).

Definition same_quotient (ab : Z * Z) : bool :=
  match truediv ab.1 ab.2, binary64_div ab.1 ab.2 with
  | Return v, Some w => (Qnum v =? Qnum w)%Z && (Qden v =? Qden w)%positive
  | _, _ => false
  end.

(** ** Statements: state and exceptions

    A statement runs on a state [S], leaves a state and either a value or a
    raised exception. *)

Definition M (S A : Type) : Type := S → S * result A.

Global Instance M_ret {S} : MRet (M S) := λ A a s, (s, Return a).

Global Instance M_bind {S} : MBind (M S) := λ A B f m s,
  match m s with
  | (s', Return a) => f a s'
  | (s', Raise e) => (s', Raise e)
  end.

Definition raise {S A} (e : Exn) : M S A := λ s, (s, Raise e).

(** A library call that answers without touching the state. *)
Definition call {S A} (r : result A) : M S A := λ s, (s, r).

Definition gets {S A} (f : S → A) : M S A := λ s, (s, Return (f s)).
Definition modify {S} (f : S → S) : M S unit := λ s, (f s, Return tt).

(** [try: body except Exception as e: handler e]. *)
Definition try_except {S A} (body : M S A) (handler : Exn → M S A) : M S A := λ s,
  match body s with
  | (s', Return a) => (s', Return a)
  | (s', Raise e) => handler e s'
  end.

(** [try: body finally: cleanup]: the cleanup always runs; the outcome is
    the body's, unless the cleanup itself raises. *)
Definition try_finally {S A} (body : M S A) (cleanup : M S unit) : M S A := λ s,
  match body s with
  | (s', r) =>
      match cleanup s' with
      | (s'', Return _) => (s'', r)
      | (s'', Raise e) => (s'', Raise e)
      end
  end.

(** [for x in l: acc = body x acc], stopping at the first exception. *)
Fixpoint for_each {S A B} (l : list A) (body : A → B → M S B) (acc : B) : M S B :=
  match l with
  | [] => mret acc
  | x :: rest => acc' ← body x acc; for_each rest body acc'
  end.

(** ** EPUB to text ([epub_to_text], app.py lines 15-41) *)

Module Epub.

(** The item kinds of ebooklib ([ebooklib.ITEM_*]). *)
Inductive ItemType :=
| ITEM_UNKNOWN | ITEM_IMAGE | ITEM_STYLE | ITEM_SCRIPT | ITEM_NAVIGATION
| ITEM_VECTOR | ITEM_FONT | ITEM_VIDEO | ITEM_AUDIO | ITEM_DOCUMENT
| ITEM_COVER | ITEM_SMIL.

Global Instance ItemType_eq_dec : EqDecision ItemType.
Proof. solve_decision. Defined.

(** An item of a book, seen through [get_type()] and [get_content()]. *)
Record EpubItem := mkItem { get_type : ItemType; get_content : bytes }.

(** A book, seen through [get_items()]: its items in the library's order. *)
Record EpubBook := mkBook { get_items : list EpubItem }.

(** A parsed markup tree, seen through [get_text()]. *)
Record Soup := mkSoup { get_text : string }.

(** What the libraries answer.
    - [tmp_stem]: directory, prefix and random part of the name that
      [tempfile] picks; the suffix is the program's.
    - [create_error], [write_error], [close_error]: the exception, if any,
      raised by creating, writing and closing the temporary file.  The file
      object buffers: a write that fits its buffer touches no disk and
      cannot fail there, what it holds reaches the disk when the file is
      closed.
    - [unlink_error]: the exception, if any, that [os.unlink] raises on an
      existing path (no permission, a read-only file system, a file held
      open on Windows).
    - [parse_epub]: [epub.read_epub] on a file with the given content.
    - [BeautifulSoup]: the constructor, given markup and parser name. *)
Record Libs := mkLibs {
  tmp_stem : string;
  create_error : option Exn;
  write_error : bytes → option Exn;
  close_error : option Exn;
  unlink_error : string → option Exn;
  parse_epub : bytes → result EpubBook;
  BeautifulSoup : bytes → string → result Soup
}.

(** The state a call runs on: the files on disk (path to content) and the
    local variable [tmp_path], which the [finally] block reads after the
    [try] block assigned it (or did not). *)
Record St := mkSt { fs : gmap string bytes; tmp_path : string }.

Definition set_fs (f : gmap string bytes → gmap string bytes) (s : St) : St :=
  mkSt (f (fs s)) (tmp_path s).
Definition set_tmp_path (p : string) (s : St) : St := mkSt (fs s) p.

Section WithLibs.
Variable L : Libs.

(** [tempfile.NamedTemporaryFile(delete=False, suffix=suffix)]: an empty
    file is created under a name that is not in use; the name ends in
    the suffix. *)
Definition NamedTemporaryFile (suffix : string) : M St string := λ s,
  match create_error L with
  | Some e => (s, Raise e)
  | None =>
      let name := tmp_stem L ++ suffix in
      match fs s !! name with
      | Some _ => (s, Raise FileExistsError)
      | None => (set_fs <[name := []]> s, Return name)
      end
  end.

(** [tmp.write(data)]. *)
Definition file_write (name : string) (data : bytes) : M St unit := λ s,
  match write_error L data with
  | Some e => (s, Raise e)
  | None =>
      match fs s !! name with
      | Some old => (set_fs <[name := (old ++ data)%list]> s, Return tt)
      | None => (s, Raise (FileNotFoundError name))
      end
  end.

(** [tmp.close()]; with [delete=False] the file stays on disk. *)
Definition file_close (name : string) : M St unit := λ s,
  match close_error L with
  | Some e => (s, Raise e)
  | None => (s, Return tt)
  end.

(** [with NamedTemporaryFile(...) as tmp: body]: the file is closed when
    the block is left, normally or by an exception. *)
Definition with_NamedTemporaryFile {A} (suffix : string)
    (body : string → M St A) : M St A :=
  tmp ← NamedTemporaryFile suffix;
  try_finally (body tmp) (file_close tmp).

(** [epub.read_epub(path)]. *)
Definition read_epub (path : string) : M St EpubBook := λ s,
  match fs s !! path with
  | Some data => (s, parse_epub L data)
  | None => (s, Raise (FileNotFoundError path))
  end.

(** [os.path.exists(path)]. *)
Definition os_path_exists (path : string) : M St bool :=
  gets (λ s, bool_decide (is_Some (fs s !! path))).

(** [os.unlink(path)]: removes an existing file unless the system
    refuses, raises on a missing one. *)
Definition os_unlink (path : string) : M St unit := λ s,
  match fs s !! path with
  | Some _ =>
      match unlink_error L path with
      | Some e => (s, Raise e)
      | None => (set_fs (delete path) s, Return tt)
      end
  | None => (s, Raise (FileNotFoundError path))
  end.

(** Lines 30-32: one turn of the loop over the items. *)
Definition item_step (item : EpubItem) (text_content : list string)
    : M St (list string) :=
  if decide (get_type item = ITEM_DOCUMENT) then
    soup ← call (BeautifulSoup L (get_content item) "html.parser");
    mret (text_content ++ [get_text soup])%list
  else mret text_content.

(** Lines 19-33: the [try] block. *)
Definition epub_try (file_content : bytes) : M St string :=
  with_NamedTemporaryFile ".epub" (λ tmp,
    file_write tmp file_content;;
    modify (set_tmp_path tmp));;
  path ← gets tmp_path;
  book ← read_epub path;
  text_content ← for_each (get_items book) item_step [];
  mret (join nl text_content).

(** Lines 35-36: the handler. *)
Definition epub_except (e : Exn) : M St string :=
  mret ("处理EPUB文件时出错: " ++ exn_str e).

(** Lines 38-41: the [finally] block. *)
Definition epub_finally : M St unit :=
  path ← gets tmp_path;
  if str_truthy path then
    there ← os_path_exists path;
    if (there : bool) then os_unlink path else mret tt
  else mret tt.

(** The function body on the local state (line 17 sets [tmp_path]). *)
Definition epub_body (file_content : bytes) : M St string :=
  modify (set_tmp_path "");;
  try_finally (try_except (epub_try file_content) epub_except) epub_finally.

(** [epub_to_text(file_content)] run on a disk: the disk it leaves and
    what the caller gets. *)
Definition epub_to_text (file_content : bytes) (disk : gmap string bytes)
    : gmap string bytes * result string :=
  let '(s, r) := epub_body file_content (mkSt disk "") in (fs s, r).

(** The name of the temporary file of a call. *)
Definition tmp_name : string := tmp_stem L ++ ".epub".

(** Where the [try] block can leave the state of a call started on [disk]:
    no file was created and nothing changed; or the file was created and
    the write raised, with [tmp_path] still empty; or the file holds the
    content and [tmp_path] names it. *)
Inductive try_left (content : bytes) (disk : gmap string bytes) : St → Prop :=
| left_untouched :
    is_Some (create_error L) ∨ is_Some (disk !! tmp_name) →
    try_left content disk (mkSt disk "")
| left_unwritten e :
    create_error L = None → disk !! tmp_name = None →
    write_error L content = Some e →
    try_left content disk (mkSt (<[tmp_name := []]> disk) "")
| left_written :
    disk !! tmp_name = None → write_error L content = None →
    try_left content disk (mkSt (<[tmp_name := content]> disk) tmp_name).

(** The document items of a book and their stripped text. *)
Definition is_document (item : EpubItem) : bool :=
  bool_decide (get_type item = ITEM_DOCUMENT).

Definition stripped_text (item : EpubItem) : string :=
  match BeautifulSoup L (get_content item) "html.parser" with
  | Return soup => get_text soup
  | Raise _ => ""
  end.

(** A readable book: the markup of every document item parses. *)
Definition parses (item : EpubItem) : Prop :=
  ∃ soup, BeautifulSoup L (get_content item) "html.parser" = Return soup.

Definition readable (book : EpubBook) : Prop :=
  ∀ item, item ∈ get_items book → is_document item = true → parses item.

End WithLibs.

End Epub.

(** ** PDF to text and PDF OCR ([pdf_to_text], [pdf_ocr], app.py lines 44-90) *)

Module Pdf.

(** A rasterised page ([fitz.Pixmap]), seen through the three attributes the
    program reads. *)
Record Pixmap := mkPixmap { width : Z; height : Z; samples : bytes }.

(** A PIL image. *)
Record Image := mkImage { mode : string; size : Z * Z; data : bytes }.

(** A page, seen through [get_text()] and [get_pixmap(dpi=...)]. *)
Record Page := mkPage {
  get_text : result string;
  get_pixmap : Z → result Pixmap
}.

(** An entry of [doc.get_toc()]: level, title, page. *)
Abbreviation TocEntry := (Z * string * Z)%type.

(** An open document, seen through [get_toc()], iteration and [len]. *)
Record Document := mkDocument {
  get_toc : result (list TocEntry);
  pages : list Page
}.

(** What the libraries answer: [fitz.open(stream=..., filetype=...)],
    [Image.frombytes(mode, size, data)] and
    [pytesseract.image_to_string(image, lang=...)]. *)
Record Libs := mkLibs {
  fitz_open : bytes → string → result Document;
  Image_frombytes : string → Z * Z → bytes → result Image;
  tesseract : Image → string → result string
}.

(** What an observer of a run sees, in order of time: the OCR engine being
    started on an image, and the progress sink being given a value. *)
Inductive Event :=
| EvOcr (img : Image) (lang : string)
| EvProgress (v : Q).

(** The progress sink handed to [pdf_ocr]: an object with a [progress]
    method. *)
Record ProgressBar := mkProgressBar { progress : Q → M (list Event) unit }.

Definition StreamlitAPIException : Exn :=
  mkExn "StreamlitAPIException" "Progress Value has invalid value [0.0, 1.0]".

(** The sink the page passes: Streamlit's progress element, which refuses a
    value outside [0.0, 1.0] and shows any other. *)
Definition st_progress_bar : ProgressBar :=
  mkProgressBar (λ v log,
    if Qle_bool 0 v && Qle_bool v 1
    then ((log ++ [EvProgress v])%list, Return tt)
    else (log, Raise StreamlitAPIException)).

Section WithLibs.
Variable L : Libs.

(** [pytesseract.image_to_string(img, lang=lang)]: the engine starts, then
    answers. *)
Definition image_to_string (img : Image) (lang : string) : M (list Event) string :=
  λ log, ((log ++ [EvOcr img lang])%list, tesseract L img lang).

(** Lines 47-61: the [try] block of [pdf_to_text]. *)
Definition pdf_to_text_try {S} (file_content : bytes) : M S (string * string) :=
  doc ← call (fitz_open L file_content "pdf");
  toc ← call (get_toc doc);
  toc_text ← mret ("目录:" ++ nl);
  toc_text ←
    match toc with
    | [] => mret (toc_text ++ "未找到目录。" ++ nl)
    | _ =>
        for_each toc (λ '(level, title, page) toc_text,
          mret (toc_text ++ (str_mul "  " (level - 1)%Z ++ "- " ++ title ++
                             " (页码 " ++ str_int page ++ ")" ++ nl)))
          toc_text
    end;
  full_text ← for_each (pages doc) (λ page full_text,
    t ← call (get_text page);
    mret (full_text ++ t)) "";
  mret (full_text, toc_text).

(** Lines 62-63: the handler of [pdf_to_text]. *)
Definition pdf_to_text_except {S} (e : Exn) : M S (string * string) :=
  mret ("处理PDF文件时出错: " ++ exn_str e, "").

(** [pdf_to_text(file_content)]. *)
Definition pdf_to_text {S} (file_content : bytes) : M S (string * string) :=
  try_except (pdf_to_text_try file_content) pdf_to_text_except.

(** Lines 81-86: one turn of the OCR loop.  [div] is the division of line
    86. *)
Definition ocr_step (div : Z → Z → result Q) (progress_bar : ProgressBar)
    (total_pages : Z) (ip : nat * Page) (full_text : string)
    : M (list Event) string :=
  let '(i, page) := ip in
  pix ← call (get_pixmap page 300);
  img ← call (Image_frombytes L "RGB" (width pix, height pix) (samples pix));
  page_text ← image_to_string img "chi_sim+eng";
  full_text ← mret (full_text ++
    ((nl ++ "--- Page " ++ str_int (Z.of_nat i + 1)%Z ++ " ---" ++ nl) ++ page_text));
  v ← call (div (Z.of_nat i + 1)%Z total_pages);
  progress progress_bar v;;
  mret full_text.

(** Lines 69-88: the [try] block of [pdf_ocr]. *)
Definition pdf_ocr_try (div : Z → Z → result Q) (file_content : bytes)
    (progress_bar : ProgressBar) : M (list Event) (string * string) :=
  doc ← call (fitz_open L file_content "pdf");
  toc ← call (get_toc doc);
  toc_text ← mret ("目录:" ++ nl);
  toc_text ←
    match toc with
    | [] => mret (toc_text ++ "未找到目录。" ++ nl)
    | _ =>
        for_each toc (λ '(level, title, page) toc_text,
          mret (toc_text ++ (str_mul "  " (level - 1)%Z ++ "- " ++ title ++
                             " (页码 " ++ str_int page ++ ")" ++ nl)))
          toc_text
    end;
  total_pages ← mret (Z.of_nat (length (pages doc)));
  full_text ← for_each (enumerate (pages doc))
    (ocr_step div progress_bar total_pages) "";
  mret (full_text, toc_text).

(** Lines 89-90: the handler of [pdf_ocr]. *)
Definition pdf_ocr_except (e : Exn) : M (list Event) (string * string) :=
  mret ("OCR处理PDF时出错: " ++ exn_str e, "").

(** [pdf_ocr], with the division of line 86 left open. *)
Definition pdf_ocr_with (div : Z → Z → result Q) (file_content : bytes)
    (progress_bar : ProgressBar) : M (list Event) (string * string) :=
  try_except (pdf_ocr_try div file_content progress_bar) pdf_ocr_except.

(** [pdf_ocr(file_content, progress_bar)]. *)
Definition pdf_ocr (file_content : bytes) (progress_bar : ProgressBar)
    : M (list Event) (string * string) :=
  pdf_ocr_with truediv file_content progress_bar.

(** A document on which every call of the two functions answers: it opens,
    has a table of contents, and every page yields text, respectively a
    pixmap, an image and recognised text. *)
Definition page_ocr (page : Page) : result string :=
  match get_pixmap page 300 with
  | Return pix =>
      match Image_frombytes L "RGB" (width pix, height pix) (samples pix) with
      | Return img => tesseract L img "chi_sim+eng"
      | Raise e => Raise e
      end
  | Raise e => Raise e
  end.

Definition page_image (page : Page) : result Image :=
  match get_pixmap page 300 with
  | Return pix => Image_frombytes L "RGB" (width pix, height pix) (samples pix)
  | Raise e => Raise e
  end.

(** What an observer sees of turn [i] of the OCR loop on a document of
    [total] pages: the engine started on the image of the page, then the
    sink given [(i + 1) / total]. *)
Definition page_events (total : nat) (ip : nat * Page) : list Event :=
  match page_image ip.2 with
  | Return img =>
      [EvOcr img "chi_sim+eng";
       EvProgress (quotient (Z.of_nat ip.1 + 1) (Z.of_nat total))]
  | Raise _ => []
  end.

Definition opens (file_content : bytes) (toc : list TocEntry) (ps : list Page) : Prop :=
  fitz_open L file_content "pdf" = Return (mkDocument (Return toc) ps).

End WithLibs.

(** What the specification says the table of contents looks like: a line
    per entry, indented by two spaces per level below the first. *)
Definition toc_entry_line (entry : TocEntry) : string :=
  let '(level, title, page) := entry in
  str_repeat "  " (Z.to_nat (level - 1)%Z) ++
  "- " ++ title ++ " (页码 " ++ str_int page ++ ")" ++ nl.

Definition toc_header : string := "目录:" ++ nl.
Definition toc_not_found : string := "未找到目录。" ++ nl.

Definition expected_toc_text (toc : list TocEntry) : string :=
  toc_header ++
  match toc with
  | [] => toc_not_found
  | _ => concat_all (map toc_entry_line toc)
  end.

(** The delimiter that precedes the text of page [n] (counted from 1): the
    line [--- Page n ---] between two line feeds. *)
Definition page_header (n : Z) : string :=
  nl ++ "--- Page " ++ str_int n ++ " ---" ++ nl.

(** What page [i] (counted from 0) with recognised text [t] adds to the
    full text. *)
Definition page_block (it : nat * string) : string :=
  page_header (Z.of_nat it.1 + 1) ++ it.2.

(** The values given to the progress sink, in order of time. *)
Definition progress_values (trace : list Event) : list Q :=
  omap (λ ev, match ev with EvProgress v => Some v | EvOcr _ _ => None end) trace.

End Pdf.

(** ** The page ([app.py] lines 100-160): widgets and session state *)

Module App.

(** [s.endswith(suffix)]. *)
Definition str_endswith (s suffix : string) : bool :=
  let n := String.length s in
  let k := String.length suffix in
  (k <=? n)%nat && bool_decide (String.substring (n - k) k s = suffix).

(** A value of a session-state slot: [None] or a [str]. *)
Inductive PyVal := PyNone | PyStr (s : string).

(** The uploaded file, seen through [name] and [getvalue()]. *)
Record UploadedFile := mkUpload { name : string; getvalue : bytes }.

(** What the widgets answer in one run of the script: what
    [st.file_uploader(label, type=...)] returns, the upload or [None], or
    raises (Streamlit refuses an upload whose extension is not among the
    types), and per label whether a button is pressed, which option of a
    radio group is chosen, whether a checkbox is ticked. *)
Record Widgets := mkWidgets {
  file_uploader : string → list string → result (option UploadedFile);
  button : string → bool;
  radio : string → string;
  checkbox : string → bool
}.

(** The libraries the page relies on; [splitext] is [os.path.splitext]. *)
Record Libs := mkLibs {
  epub_libs : Epub.Libs;
  pdf_libs : Pdf.Libs;
  splitext : string → string * string
}.

(** What a run of the script acts on: [st.session_state] (a dictionary), the
    disk, and what has been observed of the OCR engine and the progress
    element. *)
Record World := mkWorld {
  session_state : gmap string PyVal;
  disk : gmap string bytes;
  events : list Pdf.Event
}.

(** [st.session_state.<key> = v]. *)
Definition set_slot (key : string) (v : PyVal) : M World unit :=
  modify (λ w, mkWorld (<[key := v]> (session_state w)) (disk w) (events w)).

(** [if key not in st.session_state: st.session_state.<key> = None]. *)
Definition init_slot (key : string) : M World unit := λ w,
  match session_state w !! key with
  | Some _ => (w, Return tt)
  | None => set_slot key PyNone w
  end.

(** A function that acts on the disk, run in the world. *)
Definition on_disk {A} (f : gmap string bytes → gmap string bytes * result A)
    : M World A := λ w,
  let '(d, r) := f (disk w) in (mkWorld (session_state w) d (events w), r).

(** A statement that acts on the observed events, run in the world. *)
Definition on_events {A} (m : M (list Pdf.Event) A) : M World A := λ w,
  let '(ev, r) := m (events w) in (mkWorld (session_state w) (disk w) ev, r).

(** [st.progress(v)]: shows the element at [v] and hands it out.  Line 146
    passes the [int] 0, which stands for 0 percent. *)
Definition st_progress (v : Q) : M World Pdf.ProgressBar :=
  on_events (Pdf.progress Pdf.st_progress_bar v);;
  mret Pdf.st_progress_bar.

(** [progress_bar.empty()]: takes the element off the page; nothing of the
    world modelled here changes. *)
Definition progress_empty (progress_bar : Pdf.ProgressBar) : M World unit :=
  mret tt.

Section WithLibs.
Variable L : Libs.
Variable W : Widgets.

(** Lines 117-123. *)
Definition epub_branch (file_content : bytes) (file_name_base : string) : M World unit :=
  if button W "将 EPUB 转换为 TXT" then
    result ← on_disk (Epub.epub_to_text (epub_libs L) file_content);
    set_slot "processed_text" (PyStr result);;
    set_slot "file_name" (PyStr (file_name_base ++ "_epub.txt"));;
    set_slot "toc" PyNone;;
    set_slot "secondary_text" PyNone
  else mret tt.

(** Lines 133-139. *)
Definition pdf_text_branch (file_content : bytes) (file_name_base : string) : M World unit :=
  if button W "开始提取文本" then
    '(text, toc) ← Pdf.pdf_to_text (pdf_libs L) file_content;
    set_slot "processed_text" (PyStr text);;
    set_slot "toc" (PyStr toc);;
    set_slot "file_name" (PyStr (file_name_base ++ "_text.txt"));;
    set_slot "secondary_text" PyNone
  else mret tt.

(** Lines 142-158. *)
Definition pdf_ocr_branch (file_content : bytes) (file_name_base : string) : M World unit :=
  let output_txt_additionally :=
    checkbox W "同时输出一份纯文本提取的TXT文件 (作为对比或备用)" in
  if button W "开始OCR识别" then
    progress_bar ← st_progress 0%Q;
    '(ocr_text, toc) ← on_events (Pdf.pdf_ocr (pdf_libs L) file_content progress_bar);
    set_slot "processed_text" (PyStr ocr_text);;
    set_slot "toc" (PyStr toc);;
    set_slot "file_name" (PyStr (file_name_base ++ "_ocr.txt"));;
    (if output_txt_additionally then
       '(text_only, _) ← Pdf.pdf_to_text (pdf_libs L) file_content;
       set_slot "secondary_text" (PyStr text_only)
     else set_slot "secondary_text" PyNone);;
    progress_empty progress_bar
  else mret tt.

(** Lines 100-160: the script up to the rendering of the results. *)
Definition script : M World unit :=
  init_slot "processed_text";;
  init_slot "file_name";;
  init_slot "toc";;
  init_slot "secondary_text";;
  uploaded_file ← call (file_uploader W "上传你的 EPUB 或 PDF 文件" ["epub"; "pdf"]);
  match uploaded_file with
  | None => mret tt
  | Some uploaded_file =>
      let file_content := getvalue uploaded_file in
      let file_name_base := (splitext L (name uploaded_file)).1 in
      if str_endswith (name uploaded_file) ".epub" then
        epub_branch file_content file_name_base
      else if str_endswith (name uploaded_file) ".pdf" then
        let pdf_mode := radio W "选择PDF处理模式:" in
        if decide (pdf_mode = "提取文本 (适用于文本型PDF)") then
          pdf_text_branch file_content file_name_base
        else
          pdf_ocr_branch file_content file_name_base
      else mret tt
  end.

(** The runs in which the user triggers a conversion: a file is uploaded,
    its name selects a branch, and the button of that branch is pressed. *)
Definition conversion_triggered : bool :=
  match file_uploader W "上传你的 EPUB 或 PDF 文件" ["epub"; "pdf"] with
  | Raise _ | Return None => false
  | Return (Some uploaded_file) =>
      if str_endswith (name uploaded_file) ".epub" then
        button W "将 EPUB 转换为 TXT"
      else if str_endswith (name uploaded_file) ".pdf" then
        if decide (radio W "选择PDF处理模式:" = "提取文本 (适用于文本型PDF)")
        then button W "开始提取文本"
        else button W "开始OCR识别"
      else false
  end.

End WithLibs.

(** The four slots of a session state. *)
Definition slots (σ : gmap string PyVal)
    : option PyVal * option PyVal * option PyVal * option PyVal :=
  (σ !! "processed_text", σ !! "file_name", σ !! "toc", σ !! "secondary_text").

(** *** Rendering of the results ([app.py] lines 162-186) *)

(** Truthiness of a slot value: [None] and [""] are false. *)
Definition truthy (v : PyVal) : bool :=
  match v with
  | PyNone => false
  | PyStr s => str_truthy s
  end.

Definition AttributeError (what : string) : Exn :=
  mkExn "AttributeError" what.
Definition TypeError : Exn :=
  mkExn "TypeError" "expected str, bytes or os.PathLike object, not NoneType".

(** What the script puts on the page below the controls. *)
#[warnings="-register-all"]
Inductive Element :=
| Success (body : string)
| Expander (label : string) (expanded : bool) (inside : list Element)
| Text (body : PyVal)
| Subheader (body : string)
| TextArea (label : string) (value : PyVal) (height : Z)
| DownloadButton (label : string) (data : bytes) (file_name : PyVal)
    (mime : string).

(** A rendering statement reads the session state and adds elements to the
    page. *)
Record Page := mkPage { session : gmap string PyVal; shown : list Element }.

(** [st.session_state.<key>] read: raises when the key is missing. *)
Definition get_slot (key : string) : M Page PyVal := λ pg,
  match session pg !! key with
  | Some v => (pg, Return v)
  | None => (pg, Raise (AttributeError ("st.session_state has no attribute " ++ key)))
  end.

Definition emit (e : Element) : M Page unit :=
  modify (λ pg, mkPage (session pg) (shown pg ++ [e])).

(** [v.encode('utf-8')]: strings are kept as their UTF-8 bytes. *)
Definition encode_utf8 (v : PyVal) : result bytes :=
  match v with
  | PyStr s => Return (String.list_byte_of_string s)
  | PyNone => Raise (AttributeError "'NoneType' object has no attribute 'encode'")
  end.

(** [os.path.splitext(v)[0]] on a slot value. *)
Definition splitext_root (L : Libs) (v : PyVal) : result string :=
  match v with
  | PyStr s => Return (splitext L s).1
  | PyNone => Raise TypeError
  end.

(** Lines 178-186: the secondary result. *)
Definition render_secondary (L : Libs) : M Page unit :=
  secondary_text ← get_slot "secondary_text";
  if truthy secondary_text then
    emit (Subheader "额外的纯文本提取结果");;
    value ← get_slot "secondary_text";
    emit (TextArea "内容 (纯文本提取)" value 200);;
    value ← get_slot "secondary_text";
    data ← call (encode_utf8 value);
    file_name ← get_slot "file_name";
    root ← call (splitext_root L file_name);
    emit (DownloadButton "下载纯文本提取文件 (.txt)" data
            (PyStr (root ++ "_extra_text.txt")) "text/plain")
  else mret tt.

(** Lines 162-186. *)
Definition render (L : Libs) : M Page unit :=
  processed_text ← get_slot "processed_text";
  if truthy processed_text then
    emit (Success "处理完成！");;
    toc ← get_slot "toc";
    (if truthy toc then
       toc ← get_slot "toc";
       emit (Expander "查看提取的目录" false [Text toc])
     else mret tt);;
    emit (Subheader "处理结果预览");;
    value ← get_slot "processed_text";
    emit (TextArea "内容" value 400);;
    value ← get_slot "processed_text";
    data ← call (encode_utf8 value);
    file_name ← get_slot "file_name";
    emit (DownloadButton "下载主结果文件 (.txt)" data file_name "text/plain");;
    render_secondary L
  else mret tt.

(** One run of the whole script (lines 100-186) on a world: the world it
    leaves and the elements it shows. *)
Definition run (L : Libs) (W : Widgets) (w : World)
    : World * result (list Element) :=
  match script L W w with
  | (w', Return _) =>
      match render L (mkPage (session_state w') []) with
      | (pg, Return _) => (w', Return (shown pg))
      | (_, Raise e) => (w', Raise e)
      end
  | (w', Raise e) => (w', Raise e)
  end.

(** A session: the script is run again at every interaction, on the world
    the previous run left; an exception ends the session. *)
Fixpoint runs (L : Libs) (interactions : list Widgets) (w : World)
    : World * result (list Element) :=
  match interactions with
  | [] => (w, Return [])
  | W :: rest =>
      match run L W w with
      | (w', Return page) =>
          match rest with
          | [] => (w', Return page)
          | _ => runs L rest w'
          end
      | (w', Raise e) => (w', Raise e)
      end
  end.

(** What lines 100-107 make of a session state: a missing slot is set to
    [None], a slot that is there is left alone. *)
Definition init_key (key : string) (σ : gmap string PyVal) : gmap string PyVal :=
  match σ !! key with
  | Some _ => σ
  | None => <[key := PyNone]> σ
  end.

Definition init_all (σ : gmap string PyVal) : gmap string PyVal :=
  init_key "secondary_text" (init_key "toc" (init_key "file_name"
    (init_key "processed_text" σ))).

(** What the script keeps true of the session state between runs: a
    result that shows has a file name. *)
Definition named_result (σ : gmap string PyVal) : Prop :=
  ∀ v, σ !! "processed_text" = Some v → truthy v = true →
       ∃ file_name, σ !! "file_name" = Some (PyStr file_name).

Definition slots_present (σ : gmap string PyVal) : Prop :=
  is_Some (σ !! "processed_text") ∧ is_Some (σ !! "file_name") ∧
  is_Some (σ !! "toc") ∧ is_Some (σ !! "secondary_text").

End App.

(** ** Concrete libraries and inputs, on which the model can be run *)

Module Demo.

Definition b (s : string) : bytes := String.list_byte_of_string s.

(** A crude markup stripper: drops what stands between [<] and [>]. *)
Fixpoint strip_tags (inside : bool) (s : string) : string :=
  match s with
  | EmptyString => ""
  | String c rest =>
      if Ascii.eqb c (Ascii.ascii_of_nat 60) then strip_tags true rest
      else if Ascii.eqb c (Ascii.ascii_of_nat 62) then strip_tags false rest
      else if inside then strip_tags inside rest
      else String c (strip_tags inside rest)
  end.

Definition chapter1 : Epub.EpubItem := Epub.mkItem Epub.ITEM_DOCUMENT (b "<p>Hello</p>").
Definition cover_png : Epub.EpubItem := Epub.mkItem Epub.ITEM_IMAGE (b "PNG").
Definition chapter2 : Epub.EpubItem := Epub.mkItem Epub.ITEM_DOCUMENT (b "<p>World</p>").
Definition book : Epub.EpubBook := Epub.mkBook [chapter1; cover_png; chapter2].

Definition epub_file : bytes := b "PK-demo-epub".

(** Libraries on a healthy machine: only [epub_file] is a book. *)
Definition epub_libs : Epub.Libs :=
  Epub.mkLibs "/tmp/tmpk3x9" None (λ _, None) None (λ _, None)
    (λ data, if decide (data = epub_file) then Return book
             else Raise (mkExn "BadZipFile" "File is not a zip file"))
    (λ markup _, Return (Epub.mkSoup (strip_tags false (String.string_of_list_byte markup)))).

Definition ENOSPC : Exn := mkExn "OSError" "[Errno 28] No space left on device".

(** The size of the buffer of a file object (128 KiB, the largest default
    of CPython; 8 KiB in older versions). *)
Definition write_buffer : N := 131072.

(** The same libraries on a machine whose disk is full: the temporary file
    can be created; a write that fits the buffer succeeds and the failure
    shows when the file is closed, a longer write fails at once. *)
Definition epub_libs_disk_full : Epub.Libs :=
  Epub.mkLibs "/tmp/tmpk3x9" None
    (λ data, if (write_buffer <? N.of_nat (length data))%N then Some ENOSPC else None)
    (Some ENOSPC) (λ _, None)
    (Epub.parse_epub epub_libs) (Epub.BeautifulSoup epub_libs).

(** An upload of 200000 bytes: more than the buffer holds. *)
Definition big_epub_file : bytes := repeat Byte.x50 (N.to_nat 200000).

Definition PermissionError : Exn :=
  mkExn "PermissionError" "[Errno 13] Permission denied: '/tmp/tmpk3x9.epub'".

(** A machine on which the temporary file cannot be removed. *)
Definition epub_libs_unlink_fails : Epub.Libs :=
  Epub.mkLibs "/tmp/tmpk3x9" None (λ _, None) None (λ _, Some PermissionError)
    (Epub.parse_epub epub_libs) (Epub.BeautifulSoup epub_libs).

Definition page (text : string) : Pdf.Page :=
  Pdf.mkPage (Return text) (λ dpi, Return (Pdf.mkPixmap 1 1 (b text))).

Definition toc : list Pdf.TocEntry :=
  [(1, "Chapter 1", 5); (2, "Section 1.1", 6)]%Z.

Definition pdf_file : bytes := b "%PDF-demo".
Definition empty_pdf_file : bytes := b "%PDF-empty".

Definition document : Pdf.Document :=
  Pdf.mkDocument (Return toc) [page "one"; page "two"; page "three"].

Definition empty_document : Pdf.Document := Pdf.mkDocument (Return []) [].

Definition FileDataError : Exn := mkExn "FileDataError" "Failed to open stream".

(** PDF libraries: two files open, anything else is refused; the OCR engine
    reads back the bytes of the image. *)
Definition pdf_libs : Pdf.Libs :=
  Pdf.mkLibs
    (λ data _, if decide (data = pdf_file) then Return document
               else if decide (data = empty_pdf_file) then Return empty_document
               else Raise FileDataError)
    (λ mode size data, Return (Pdf.mkImage mode size data))
    (λ img _, Return (String.string_of_list_byte (Pdf.data img))).

(** A simple [splitext]: cuts at the last dot. *)
Fixpoint split_last_dot (p : string) : option (string * string) :=
  match p with
  | EmptyString => None
  | String c rest =>
      match split_last_dot rest with
      | Some (root, ext) => Some (String c root, ext)
      | None => if Ascii.eqb c (Ascii.ascii_of_nat 46) then Some ("", p) else None
      end
  end.

Definition app_libs : App.Libs :=
  App.mkLibs epub_libs pdf_libs (λ p, default (p, "") (split_last_dot p)).

Definition InvalidFileExtension : Exn :=
  mkExn "StreamlitAPIException" "Invalid file extension".

(** An upload widget: nothing chosen, or a file, which is refused unless
    its extension is one of the types. *)
Definition uploader (upload : option App.UploadedFile)
    : string → list string → result (option App.UploadedFile) := λ label types,
  match upload with
  | None => Return None
  | Some f =>
      match split_last_dot (App.name f) with
      | Some (_, ext) =>
          if bool_decide (ext ∈ map (String.append ".") types)
          then Return (Some f) else Raise InvalidFileExtension
      | None => Raise InvalidFileExtension
      end
  end.

Definition uploader_label : string := "上传你的 EPUB 或 PDF 文件".

Definition epub_label : string := "将 EPUB 转换为 TXT".
Definition ocr_label : string := "开始OCR识别".

(** The user uploaded [book.epub] and pressed the EPUB button. *)
Definition epub_click : App.Widgets :=
  App.mkWidgets (uploader (Some (App.mkUpload "book.epub" epub_file)))
    (λ label, bool_decide (label = epub_label)) (λ _, "") (λ _, false).

(** A session that already holds the results of an earlier conversion. *)
Definition old_session : gmap string App.PyVal :=
  <["processed_text" := App.PyStr "old text"]>
  (<["file_name" := App.PyStr "old_ocr.txt"]>
  (<["toc" := App.PyStr "old toc"]>
  (<["secondary_text" := App.PyStr "old extra"]> ∅))).

Definition notes : gmap string bytes := {["/home/user/notes.txt" := b "keep me"]}.

(** A book whose second chapter is not markup that the parser accepts. *)
Definition chapter_broken : Epub.EpubItem :=
  Epub.mkItem Epub.ITEM_DOCUMENT (b "broken").
Definition broken_book : Epub.EpubBook :=
  Epub.mkBook [chapter1; chapter_broken; chapter2].
Definition broken_epub_file : bytes := b "PK-broken-epub".
Definition ParserRejectedMarkup : Exn :=
  mkExn "ParserRejectedMarkup" "malformed start tag".

Definition epub_libs_strict : Epub.Libs :=
  Epub.mkLibs "/tmp/tmpk3x9" None (λ _, None) None (λ _, None)
    (λ data, if decide (data = broken_epub_file) then Return broken_book
             else Epub.parse_epub epub_libs data)
    (λ markup parser,
       if decide (markup = b "broken") then Raise ParserRejectedMarkup
       else Epub.BeautifulSoup epub_libs markup parser).

Definition EIO : Exn := mkExn "OSError" "[Errno 5] Input/output error".

(** A machine on which closing the temporary file fails. *)
Definition epub_libs_close_fails : Epub.Libs :=
  Epub.mkLibs "/tmp/tmpk3x9" None (λ _, None) (Some EIO) (λ _, None)
    (Epub.parse_epub epub_libs) (Epub.BeautifulSoup epub_libs).

(** A page whose text layer cannot be read and which cannot be rasterised. *)
Definition damaged_page : Pdf.Page :=
  Pdf.mkPage (Raise FileDataError) (λ _, Raise FileDataError).

Definition damaged_pdf_file : bytes := b "%PDF-damaged".
Definition damaged_document : Pdf.Document :=
  Pdf.mkDocument (Return toc) [page "one"; damaged_page; page "three"].

Definition pdf_libs_damaged : Pdf.Libs :=
  Pdf.mkLibs
    (λ data kind, if decide (data = damaged_pdf_file) then Return damaged_document
                  else Pdf.fitz_open pdf_libs data kind)
    (Pdf.Image_frombytes pdf_libs) (Pdf.tesseract pdf_libs).

Definition BrokenPipe : Exn := mkExn "BrokenPipeError" "[Errno 32] Broken pipe".

(** A sink that raises whenever it is told something. *)
Definition broken_bar : Pdf.ProgressBar := Pdf.mkProgressBar (λ _, raise BrokenPipe).

Definition text_label : string := "开始提取文本".
Definition mode_label : string := "选择PDF处理模式:".
Definition text_mode : string := "提取文本 (适用于文本型PDF)".
Definition ocr_mode : string := "OCR识别 (适用于扫描型PDF)".
Definition extra_label : string :=
  "同时输出一份纯文本提取的TXT文件 (作为对比或备用)".

(** Nothing uploaded, nothing pressed. *)
Definition idle : App.Widgets :=
  App.mkWidgets (uploader None) (λ _, false) (λ _, text_mode) (λ _, false).

(** The user chose a text file. *)
Definition txt_upload : App.Widgets :=
  App.mkWidgets (uploader (Some (App.mkUpload "notes.txt" (b "plain text"))))
    (λ _, false) (λ _, text_mode) (λ _, false).

(** The user uploaded something that is not a PDF under the name
    [scan.pdf], chose text extraction and pressed its button. *)
Definition corrupt_pdf_click : App.Widgets :=
  App.mkWidgets (uploader (Some (App.mkUpload "scan.pdf" (b "not a pdf"))))
    (λ label, bool_decide (label = text_label)) (λ _, text_mode) (λ _, false).

(** The user uploaded a PDF, chose OCR, ticked the checkbox and pressed
    the OCR button. *)
Definition ocr_click (file : bytes) : App.Widgets :=
  App.mkWidgets (uploader (Some (App.mkUpload "scan.pdf" file)))
    (λ label, bool_decide (label = ocr_label)) (λ _, ocr_mode) (λ _, true).

End Demo.

(** * Properties *)

(** ** Strings, statements and loops *)

Lemma str_app_cons (x : Ascii.ascii) (a b : string) :
  String x a ++ b = String x (a ++ b).
Proof. reflexivity. Qed.

Lemma str_app_nil_l (a : string) : "" ++ a = a.
Proof. reflexivity. Qed.

Lemma str_app_assoc (a b c : string) : (a ++ b) ++ c = a ++ (b ++ c).
Proof.
  induction a as [|x a IH]; [done|].
  by rewrite !str_app_cons, IH.
Qed.

Lemma str_app_nil_r (a : string) : a ++ "" = a.
Proof.
  induction a as [|x a IH]; [done|].
  by rewrite str_app_cons, IH.
Qed.

Lemma concat_all_app (l1 l2 : list string) :
  concat_all (l1 ++ l2) = concat_all l1 ++ concat_all l2.
Proof.
  induction l1 as [|x l1 IH]; [done|].
  change (x ++ concat_all (l1 ++ l2) = (x ++ concat_all l1) ++ concat_all l2).
  by rewrite IH, str_app_assoc.
Qed.

Lemma bind_run {S A B} (m : M S A) (f : A → M S B) s :
  (m ≫= f) s =
  match m s with
  | (s', Return a) => f a s'
  | (s', Raise e) => (s', Raise e)
  end.
Proof. done. Qed.

Lemma enumerate_from_length {A} (l : list A) i :
  length (enumerate_from i l) = length l.
Proof. revert i. induction l as [|x l IH]; intros i; simpl; [done | by rewrite IH]. Qed.


Lemma join_concat (sep : string) (l : list string) :
  join sep l = String.concat sep l.
Proof.
  induction l as [|x [|y l] IH]; [done..|].
  change (x ++ sep ++ join sep (y :: l) = x ++ sep ++ String.concat sep (y :: l)).
  by rewrite IH.
Qed.

Lemma str_repeat_concat (s : string) (n : nat) :
  str_repeat s n = String.concat "" (repeat s n).
Proof.
  induction n as [|[|n] IH]; [done | by apply str_app_nil_r |].
  change (s ++ str_repeat s (S n) = s ++ "" ++ String.concat "" (repeat s (S n))).
  by rewrite IH.
Qed.

(** ** Decimal numerals *)

Lemma digit_value_char (d : N) :
  (d < 10)%N → digit_value (pretty_N_char d) = Some (Z.of_N d) ∧
               (d ≠ 0%N → Ascii.eqb (pretty_N_char d) (Ascii.ascii_of_nat 48) = false) ∧
               Ascii.eqb (pretty_N_char d) (Ascii.ascii_of_nat 45) = false.
Proof.
  intros Hd.
  assert (d = 0 ∨ d = 1 ∨ d = 2 ∨ d = 3 ∨ d = 4 ∨ d = 5 ∨ d = 6 ∨ d = 7 ∨
          d = 8 ∨ d = 9)%N as Hcases by lia.
  repeat (destruct Hcases as [->|Hcases]); try subst d; done.
Qed.

(** The digits that [str] puts in front of [s] for a positive number: the
    first is not a zero, and read back they give the number. *)
Lemma pretty_N_go_value (x : N) :
  (0 < x)%N →
  ∃ p : Z, ∀ s, ∃ c rest,
    pretty_N_go x s = String c rest ∧
    Ascii.eqb c (Ascii.ascii_of_nat 48) = false ∧
    Ascii.eqb c (Ascii.ascii_of_nat 45) = false ∧
    ∀ acc, digits_value acc (pretty_N_go x s) =
           digits_value (acc * p + Z.of_N x) s.
Proof.
  induction (N.lt_wf_0 x) as [x _ IH]. intros Hx.
  pose proof (N.mod_lt x 10 ltac:(done)) as Hmod.
  destruct (digit_value_char (x `mod` 10) Hmod) as (Hdigit & Hzero & Hdash).
  pose proof (N.div_mod x 10 ltac:(done)) as Hdm.
  destruct (decide (x `div` 10 = 0)%N) as [Hsmall|Hbig].
  - exists 10%Z. intros s. rewrite pretty_N_go_step by done.
    rewrite Hsmall, pretty_N_go_0.
    do 2 eexists. split; [done|]. split; [apply Hzero; lia|]. split; [done|].
    intros acc. simpl. rewrite Hdigit. f_equal. lia.
  - destruct (IH (x `div` 10)%N) as [p Hp].
    { apply N.div_lt; lia. }
    { lia. }
    exists (10 * p)%Z. intros s. rewrite pretty_N_go_step by done.
    destruct (Hp (String (pretty_N_char (x `mod` 10)) s))
      as (c & rest & Hgo & Hc0 & Hcd & Hval).
    exists c, rest. split; [done|]. split; [done|]. split; [done|].
    intros acc. rewrite Hval. simpl. rewrite Hdigit. f_equal. lia.
Qed.

Lemma numeral_value_pretty (p : positive) :
  ∃ c rest, pretty (N.pos p) = String c rest ∧
            Ascii.eqb c (Ascii.ascii_of_nat 45) = false ∧
            numeral_value (pretty (N.pos p)) = Some (Z.pos p).
Proof.
  destruct (pretty_N_go_value (N.pos p) ltac:(done)) as [q Hq].
  destruct (Hq "") as (c & rest & Hgo & Hc0 & Hcd & Hval).
  assert (pretty (N.pos p) = pretty_N_go (N.pos p) "") as -> by done.
  exists c, rest. split; [done|]. split; [done|].
  specialize (Hval 0%Z). rewrite Hgo in *. unfold numeral_value.
  rewrite Hc0, Hval. simpl. done.
Qed.

(** [str(n)] is the decimal numeral of [n]. *)
Lemma str_int_decimal (n : Z) : decimal_value (str_int n) = Some n.
Proof.
  unfold str_int. destruct n as [|p|p].
  - done.
  - destruct (numeral_value_pretty p) as (c & rest & Hs & Hcd & Hval).
    change (pretty (Z.pos p)) with (pretty (N.pos p)).
    rewrite Hs in *. unfold decimal_value. by rewrite Hcd.
  - destruct (numeral_value_pretty p) as (c & rest & Hs & Hcd & Hval).
    change (pretty (Z.neg p)) with (String (Ascii.ascii_of_nat 45) (pretty (N.pos p))).
    unfold decimal_value. simpl Ascii.eqb. cbv iota. rewrite Hval. done.
Qed.


(** ** The division of line 86 *)

Lemma round_half_even_bounds (n d : Z) :
  (0 ≤ n)%Z → (0 < d)%Z →
  (2 * n - d ≤ 2 * round_half_even n d * d ≤ 2 * n + d)%Z.
Proof.
  intros Hn Hd. unfold round_half_even.
  pose proof (Z.div_mod n d ltac:(lia)) as Hdm.
  pose proof (Z.mod_pos_bound n d Hd) as Hr.
  set (q := (n / d)%Z) in *. set (r := (n mod d)%Z) in *.
  destruct (Z.ltb_spec (2 * r) d); [nia|].
  destruct (Z.ltb_spec d (2 * r)); [nia|].
  destruct (Z.even q); nia.
Qed.

Lemma round_half_even_exact (k d : Z) :
  (0 < d)%Z → round_half_even (k * d) d = k.
Proof.
  intros Hd. unfold round_half_even.
  rewrite Z.div_mul, Z.mod_mul by lia.
  destruct (Z.ltb_spec (2 * 0) d); [done | lia].
Qed.

Lemma round_half_even_le (n d K : Z) :
  (0 ≤ n)%Z → (0 < d)%Z → (n ≤ K * d)%Z → (round_half_even n d ≤ K)%Z.
Proof.
  intros Hn Hd HK. pose proof (round_half_even_bounds n d Hn Hd). nia.
Qed.

Lemma round_half_even_ge (n d K : Z) :
  (0 ≤ n)%Z → (0 < d)%Z → (K * d ≤ n)%Z → (K ≤ round_half_even n d)%Z.
Proof.
  intros Hn Hd HK. pose proof (round_half_even_bounds n d Hn Hd). nia.
Qed.

(** The binade of a fraction [a / b] with [0 < a <= b]. *)
Lemma binade_fraction (a b : Z) :
  (0 < a ≤ b)%Z →
  ∃ j, binade a b = (- j)%Z ∧ (0 ≤ j)%Z ∧ (b ≤ a * 2 ^ j < 2 * b)%Z.
Proof.
  intros Hab. unfold binade.
  pose proof (Z.log2_spec a ltac:(lia)) as Ha.
  pose proof (Z.log2_spec b ltac:(lia)) as Hb.
  pose proof (Z.log2_nonneg a) as Hla.
  pose proof (Z.log2_le_mono a b ltac:(lia)) as Hlab.
  set (la := Z.log2 a) in *. set (lb := Z.log2 b) in *.
  set (k := (lb - la)%Z).
  assert (0 ≤ k)%Z as Hk by lia.
  replace (la - lb)%Z with (- k)%Z by lia.
  replace (Z.max 0 (- k)) with 0%Z by lia.
  replace (Z.max 0 (- - k)) with k by lia.
  rewrite Z.pow_0_r, Z.mul_1_r.
  assert (2 ^ Z.succ lb = 2 * 2 ^ lb)%Z as Hsb by (by rewrite Z.pow_succ_r by lia).
  assert (2 ^ Z.succ la = 2 * 2 ^ la)%Z as Hsa by (by rewrite Z.pow_succ_r by lia).
  assert (2 ^ lb = 2 ^ la * 2 ^ k)%Z as Hlb.
  { rewrite <- Z.pow_add_r by lia. f_equal. lia. }
  assert (0 < 2 ^ k)%Z as Hpk by (apply Z.pow_pos_nonneg; lia).
  assert (0 < 2 ^ la)%Z as Hpa by (apply Z.pow_pos_nonneg; lia).
  destruct (Z.leb_spec b (a * 2 ^ k)) as [Hle|Hlt].
  - exists k. split; [done|]. split; [done|]. nia.
  - exists (k + 1)%Z. split; [lia|]. split; [lia|].
    rewrite Z.pow_add_r, Z.pow_1_r by lia. nia.
Qed.

Lemma pow2_to_pos (k : Z) : (0 ≤ k)%Z → Z.pos (Z.to_pos (2 ^ k)) = (2 ^ k)%Z.
Proof. intros Hk. apply Z2Pos.id. apply Z.pow_pos_nonneg; lia. Qed.

(** [a / b] for [0 < a <= b]: the significand is rounded at the bit
    [2^-k], with [k = 52 - binade], and at most 1074. *)
Lemma truediv_fraction (a b : Z) :
  (0 < a ≤ b)%Z →
  ∃ k, k = Z.min (52 - binade a b) 1074 ∧ (52 ≤ k)%Z ∧
       truediv a b =
       Return (Qred (round_half_even (a * 2 ^ k) b # Z.to_pos (2 ^ k))).
Proof.
  intros Hab. destruct (binade_fraction a b Hab) as (j & Hj & Hj0 & _).
  exists (Z.min (52 - binade a b) 1074). split; [done|]. split; [lia|].
  unfold truediv, nearest_double.
  destruct (Z.eqb_spec b 0); [lia|]. destruct (Z.eqb_spec a 0); [lia|].
  rewrite !Z.abs_eq by lia.
  set (u := Z.max (binade a b - 52) (-1074)).
  assert (u = - Z.min (52 - binade a b) 1074)%Z as Hu by (unfold u; lia).
  assert (u ≤ -52)%Z as Hneg by lia.
  replace (Z.max 0 u) with 0%Z by lia.
  replace (Z.max 0 (- u)) with (Z.min (52 - binade a b) 1074) by lia.
  destruct (Z.leb_spec 0 u); [lia|]. simpl andb. cbv iota.
  rewrite Z.pow_0_r, !Z.mul_1_r.
  replace (Z.sgn a) with 1%Z by lia. replace (Z.sgn b) with 1%Z by lia.
  by rewrite !Z.mul_1_l.
Qed.

(** The quotient of a fraction is in the range that the progress element
    accepts. *)
Lemma truediv_in_range (a b : Z) :
  (0 < a ≤ b)%Z → ∃ v, truediv a b = Return v ∧ (0 <= v)%Q ∧ (v <= 1)%Q.
Proof.
  intros Hab. destruct (truediv_fraction a b Hab) as (k & _ & Hk & ->).
  eexists. split; [done|]. rewrite Qred_correct.
  assert (0 < 2 ^ k)%Z as Hp by (apply Z.pow_pos_nonneg; lia).
  pose proof (round_half_even_ge (a * 2 ^ k) b 0 ltac:(nia) ltac:(lia) ltac:(nia)).
  pose proof (round_half_even_le (a * 2 ^ k) b (2 ^ k) ltac:(nia) ltac:(lia) ltac:(nia)).
  split; unfold Qle; simpl; rewrite ?pow2_to_pos by lia; lia.
Qed.

(** The quotient of a number by itself is exactly 1. *)
Lemma truediv_same (b : Z) : (0 < b)%Z → truediv b b = Return 1%Q.
Proof.
  intros Hb. destruct (truediv_fraction b b ltac:(lia)) as (k & _ & Hk & ->).
  f_equal. rewrite Z.mul_comm, round_half_even_exact by lia.
  change 1%Q with (Qred 1). apply Qred_complete.
  unfold Qeq. simpl. rewrite pow2_to_pos by lia. lia.
Qed.




(** On small operands the division is the IEEE 754 division of the
    Standard Library. *)
Lemma truediv_agrees_with_binary64_div :
  forallb same_quotient (list_prod (seqZ 1 40) (seqZ (-20) 20 ++ seqZ 1 40)) = true
  ∧ same_quotient (1, 3)%Z = true.
Proof. split; vm_compute; reflexivity. Qed.

(** ** EPUB *)

Section EpubFacts.
Import Epub.
Variable L : Libs.

(** The loop over the items leaves the state alone. *)
Lemma items_loop_state (items : list EpubItem) acc s :
  (for_each items (item_step L) acc s).1 = s.
Proof.
  revert acc. induction items as [|item items IH]; intros acc; simpl; [done|].
  rewrite bind_run. unfold item_step.
  destruct (decide (get_type item = ITEM_DOCUMENT)) as [Hd|Hd].
  - rewrite bind_run. unfold call.
    destruct (BeautifulSoup L (get_content item) "html.parser") as [soup|e]; simpl; [apply IH | done].
  - simpl. apply IH.
Qed.

(** On readable items the loop collects the stripped texts of the
    document items, in order. *)
Lemma items_loop_readable (items : list EpubItem) acc s :
  (∀ item, item ∈ items → is_document item = true → parses L item) →
  for_each items (item_step L) acc s =
  (s, Return (acc ++ map (stripped_text L)
                       (filter (λ item, is_document item = true) items))%list).
Proof.
  revert acc. induction items as [|item items IH]; intros acc Hok; simpl.
  - by rewrite app_nil_r.
  - rewrite bind_run. unfold item_step, is_document in *.
    rewrite filter_cons.
    destruct (decide (get_type item = ITEM_DOCUMENT)) as [Hd|Hd].
    + destruct (Hok item) as [soup Hsoup]; [by left | by apply bool_decide_eq_true |].
      rewrite bind_run. unfold call. rewrite Hsoup. simpl.
      rewrite IH by (intros; apply Hok; [by right | done]).
      rewrite decide_True by (by apply bool_decide_eq_true).
      simpl. unfold stripped_text at 2. rewrite Hsoup.
      by rewrite <- app_assoc.
    + simpl. rewrite IH by (intros; apply Hok; [by right | done]).
      rewrite decide_False; [done|].
      intros Ht. by apply bool_decide_eq_true in Ht.
Qed.

(** The [finally] block: nothing to do when [tmp_path] is empty or names
    no file; otherwise the file is removed, unless [os.unlink] raises. *)
Lemma epub_finally_run (s : St) :
  epub_finally L s =
  if str_truthy (tmp_path s) then
    match fs s !! tmp_path s with
    | Some _ =>
        match unlink_error L (tmp_path s) with
        | Some e => (s, Raise e)
        | None => (mkSt (delete (tmp_path s) (fs s)) (tmp_path s), Return tt)
        end
    | None => (s, Return tt)
    end
  else (s, Return tt).
Proof.
  unfold epub_finally. rewrite bind_run. unfold gets. simpl.
  destruct s as [d p]; simpl. destruct (str_truthy p); [|done].
  rewrite bind_run. unfold os_path_exists, gets; simpl.
  case_bool_decide as Hex.
  - unfold os_unlink; simpl. destruct Hex as [x Hx]. rewrite Hx.
    by destruct (unlink_error L p).
  - apply eq_None_not_Some in Hex. by rewrite Hex.
Qed.

Lemma tmp_name_truthy : str_truthy (tmp_name L) = true.
Proof. unfold tmp_name. by destruct (tmp_stem L). Qed.

Lemma epub_try_left (content : bytes) (disk : gmap string bytes) :
  try_left L content disk (epub_try L content (mkSt disk "")).1.
Proof.
  unfold epub_try, with_NamedTemporaryFile. rewrite !bind_run.
  unfold NamedTemporaryFile. fold (tmp_name L). simpl.
  destruct (create_error L) as [e|] eqn:Hc; simpl; [constructor; left; eauto|].
  destruct (disk !! tmp_name L) as [old|] eqn:Hd; simpl;
    [constructor; right; rewrite Hd; eauto|].
  unfold try_finally. rewrite bind_run. unfold file_write. simpl.
  destruct (write_error L content) as [e|] eqn:Hw; simpl.
  - unfold file_close. destruct (close_error L); simpl; by econstructor.
  - rewrite lookup_insert_eq. simpl. unfold set_tmp_path, set_fs; simpl.
    rewrite insert_insert_eq.
    unfold file_close. destruct (close_error L) as [e|]; simpl; [by constructor|].
    rewrite bind_run. unfold gets. simpl.
    rewrite bind_run. unfold read_epub. simpl. rewrite lookup_insert_eq.
    destruct (parse_epub L content) as [book|e]; simpl; [|by constructor].
    rewrite bind_run.
    pose proof (items_loop_state (get_items book) []
      (mkSt (<[tmp_name L := content]> disk) (tmp_name L))) as Hs.
    destruct (for_each _ _ _ _) as [s' [ts|e]]; simpl in *; subst s'; by constructor.
Qed.

(** The body: the handler turns an exception of the [try] block into a
    message; then the [finally] block runs, and an exception it raises
    replaces the result. *)
Lemma epub_body_run (content : bytes) (disk : gmap string bytes) :
  epub_body L content (mkSt disk "") =
  let '(s, r) := epub_try L content (mkSt disk "") in
  match epub_finally L s with
  | (s', Return _) =>
      (s', Return match r with
                  | Return text => text
                  | Raise e => "处理EPUB文件时出错: " ++ exn_str e
                  end)
  | (s', Raise e) => (s', Raise e)
  end.
Proof.
  unfold epub_body. rewrite bind_run. unfold modify, set_tmp_path. simpl.
  unfold try_finally, try_except.
  by destruct (epub_try L content _) as [s [text|e]]; simpl.
Qed.

(** The [try] block once the temporary file holds the content. *)
Lemma epub_try_written (content : bytes) (disk : gmap string bytes) :
  create_error L = None → disk !! tmp_name L = None →
  write_error L content = None →
  epub_try L content (mkSt disk "") =
  let s := mkSt (<[tmp_name L := content]> disk) (tmp_name L) in
  match close_error L with
  | Some e => (s, Raise e)
  | None =>
      match parse_epub L content with
      | Raise e => (s, Raise e)
      | Return book =>
          (for_each (get_items book) (item_step L) []
           ≫= λ text_content, mret (join nl text_content)) s
      end
  end.
Proof.
  intros Hc Hd Hw.
  unfold epub_try, with_NamedTemporaryFile. rewrite !bind_run.
  unfold NamedTemporaryFile. fold (tmp_name L). simpl.
  rewrite Hc, Hd. simpl. unfold try_finally. rewrite bind_run.
  unfold file_write. simpl. rewrite Hw, lookup_insert_eq. simpl.
  unfold set_tmp_path, set_fs; simpl. rewrite insert_insert_eq.
  unfold file_close. destruct (close_error L) as [e|]; simpl; [done|].
  rewrite bind_run. unfold gets. simpl.
  rewrite bind_run. unfold read_epub. simpl. rewrite lookup_insert_eq.
  by destruct (parse_epub L content).
Qed.

(** What the call gives once the temporary file holds the content: the
    outcome of the [try] block and a disk as before, unless [os.unlink]
    raises; then the exception reaches the caller and the file stays. *)
Lemma epub_to_text_written (content : bytes) (disk : gmap string bytes) :
  create_error L = None → disk !! tmp_name L = None →
  write_error L content = None →
  epub_to_text L content disk =
  match unlink_error L (tmp_name L) with
  | None =>
      (disk, Return match (epub_try L content (mkSt disk "")).2 with
                    | Return text => text
                    | Raise e => "处理EPUB文件时出错: " ++ exn_str e
                    end)
  | Some e => (<[tmp_name L := content]> disk, Raise e)
  end.
Proof.
  intros Hc Hd Hw.
  pose proof (epub_try_left content disk) as Hleft.
  unfold epub_to_text. rewrite epub_body_run.
  destruct (epub_try L content _) as [s r]; simpl in *.
  rewrite epub_finally_run.
  destruct Hleft as [[[? Hc']|[? Hd']]|e' _ _ Hw'|_ _]; [congruence..|]. simpl.
  rewrite tmp_name_truthy, lookup_insert_eq.
  destruct (unlink_error L (tmp_name L)); simpl; [done|].
  rewrite delete_insert_eq. by rewrite delete_id.
Qed.

(** When the file is created and the write raises, [tmp_path] is still
    empty when the [finally] block runs, and the file stays. *)
Lemma epub_tmp_file_left (content : bytes) (disk : gmap string bytes) e :
  create_error L = None → disk !! tmp_name L = None →
  write_error L content = Some e →
  epub_to_text L content disk =
  (<[tmp_name L := []]> disk,
   Return ("处理EPUB文件时出错: " ++ exn_str (default e (close_error L)))).
Proof.
  intros Hc Hd Hw. unfold epub_to_text. rewrite epub_body_run.
  unfold epub_try, with_NamedTemporaryFile. rewrite !bind_run.
  unfold NamedTemporaryFile. fold (tmp_name L). simpl.
  rewrite Hc, Hd. simpl. unfold try_finally. rewrite bind_run.
  unfold file_write. simpl. rewrite Hw. simpl.
  unfold file_close. simpl.
  by destruct (close_error L) as [e'|].
Qed.

(** The call raises only what [os.unlink] raised on the temporary file. *)
Lemma epub_to_text_outcome (content : bytes) (disk : gmap string bytes) :
  ∃ disk',
    (∃ text, epub_to_text L content disk = (disk', Return text)) ∨
    (∃ e, epub_to_text L content disk = (disk', Raise e) ∧
          unlink_error L (tmp_name L) = Some e).
Proof.
  pose proof (epub_try_left content disk) as Hleft.
  unfold epub_to_text. rewrite epub_body_run.
  destruct (epub_try L content _) as [s r]; simpl in *.
  rewrite epub_finally_run.
  destruct Hleft as [_|e' _ _ _|_ _]; simpl; [by eauto..|].
  rewrite tmp_name_truthy, lookup_insert_eq.
  destruct (unlink_error L (tmp_name L)) as [e|] eqn:Hu; simpl; by eauto.
Qed.

(** When neither the write nor [os.unlink] raises, the call leaves the
    disk as it found it: the temporary file, if one was created, is
    gone. *)
Lemma epub_disk_restored (content : bytes) (disk : gmap string bytes) :
  write_error L content = None →
  unlink_error L (tmp_name L) = None →
  (epub_to_text L content disk).1 = disk.
Proof.
  intros Hw Hu.
  pose proof (epub_try_left content disk) as Hleft.
  unfold epub_to_text. rewrite epub_body_run.
  destruct (epub_try L content _) as [s r]; simpl in *.
  rewrite epub_finally_run.
  destruct Hleft as [_|e _ _ Hw'|Hd _]; simpl; [done | congruence |].
  rewrite tmp_name_truthy, lookup_insert_eq, Hu. simpl.
  rewrite delete_insert_eq. by apply delete_id.
Qed.

End EpubFacts.

(** C2. The claim fails on the code: [os.unlink] at line 41 stands in the
    [finally] block, outside the handler.  When the temporary file was
    written and [os.unlink] raises [e], the call raises [e] to its caller,
    whatever the [try] block did, and the file stays on disk. *)
Theorem epub_to_text_raises_when_unlink_fails (L : Epub.Libs)
    (file_content : bytes) (disk : gmap string bytes) (e : Exn) :
  Epub.create_error L = None →
  disk !! Epub.tmp_name L = None →
  Epub.write_error L file_content = None →
  Epub.unlink_error L (Epub.tmp_name L) = Some e →
  Epub.epub_to_text L file_content disk =
  (<[Epub.tmp_name L := file_content]> disk, Raise e).
Proof.
  intros Hc Hd Hw Hu. rewrite epub_to_text_written by done. by rewrite Hu.
Qed.

Lemma epub_to_text_raises_when_unlink_fails_witness :
  Epub.epub_to_text Demo.epub_libs_unlink_fails Demo.epub_file ∅ =
  (<["/tmp/tmpk3x9.epub" := Demo.epub_file]> ∅, Raise Demo.PermissionError).
Proof.
  apply (epub_to_text_raises_when_unlink_fails Demo.epub_libs_unlink_fails
           Demo.epub_file ∅ Demo.PermissionError); reflexivity.
Defined.

(** C1. The claim fails on the code: [tmp_path] is assigned after
    [tmp.write].  When the temporary file was created and [tmp.write]
    raises (the content is longer than the buffer of the file object and
    the disk refuses it), the [finally] block finds [tmp_path] empty and
    removes nothing: the call returns the error message and the file is
    still on disk. *)
Theorem epub_tmp_file_left_when_write_raises (L : Epub.Libs)
    (file_content : bytes) (disk : gmap string bytes) (e : Exn) :
  Epub.create_error L = None →
  disk !! Epub.tmp_name L = None →
  Epub.write_error L file_content = Some e →
  ∃ disk' message,
    Epub.epub_to_text L file_content disk = (disk', Return message) ∧
    is_Some (disk' !! Epub.tmp_name L) ∧
    message = "处理EPUB文件时出错: " ++ exn_str (default e (Epub.close_error L)).
Proof.
  intros Hc Hd Hw. do 2 eexists.
  split; [by apply (epub_tmp_file_left L file_content disk e)|].
  split; [|done]. rewrite lookup_insert_eq. eauto.
Qed.

Lemma epub_tmp_file_left_when_write_raises_witness :
  ∃ disk' message,
    Epub.epub_to_text Demo.epub_libs_disk_full Demo.big_epub_file ∅ =
      (disk', Return message) ∧
    is_Some (disk' !! "/tmp/tmpk3x9.epub") ∧
    message = "处理EPUB文件时出错: " ++ "[Errno 28] No space left on device".
Proof.
  apply (epub_tmp_file_left_when_write_raises Demo.epub_libs_disk_full
           Demo.big_epub_file ∅ Demo.ENOSPC).
  - reflexivity.
  - reflexivity.
  - vm_compute. reflexivity.
Defined.

(** C6. For a readable book (the temporary file can be written, closed and
    removed, the library parses it, the markup of every document item
    parses) the call returns the stripped texts of the document items, in
    item order, joined by single line feeds; other items add nothing; the
    disk is left as it was. *)
Theorem epub_text_of_readable_book (L : Epub.Libs) (file_content : bytes)
    (disk : gmap string bytes) (book : Epub.EpubBook) :
  Epub.create_error L = None →
  disk !! Epub.tmp_name L = None →
  Epub.write_error L file_content = None →
  Epub.close_error L = None →
  Epub.unlink_error L (Epub.tmp_name L) = None →
  Epub.parse_epub L file_content = Return book →
  Epub.readable L book →
  Epub.epub_to_text L file_content disk =
  (disk,
   Return (String.concat nl
     (map (Epub.stripped_text L)
        (filter (λ item, Epub.get_type item = Epub.ITEM_DOCUMENT)
                (Epub.get_items book))))).
Proof.
  intros Hc Hd Hw Hcl Hu Hp Hr.
  rewrite epub_to_text_written by done. rewrite Hu.
  rewrite epub_try_written by done. simpl. rewrite Hcl, Hp.
  rewrite bind_run, items_loop_readable by done. simpl.
  rewrite join_concat. do 4 f_equal.
  apply list_filter_iff. intros item. unfold Epub.is_document.
  by rewrite bool_decide_eq_true.
Qed.

Lemma epub_text_of_readable_book_witness :
  Epub.epub_to_text Demo.epub_libs Demo.epub_file ∅ =
  (∅, Return ("Hello" ++ nl ++ "World")).
Proof.
  rewrite (epub_text_of_readable_book Demo.epub_libs Demo.epub_file ∅ Demo.book);
    try reflexivity.
  intros item _ _. eexists. reflexivity.
Defined.
(** ** PDF *)

Section PdfFacts.
Import Pdf.
Variable L : Libs.

(** The loop that renders the entries of a table of contents. *)
Lemma toc_loop_run {S} (toc : list TocEntry) (acc : string) (s : S) :
  for_each toc (λ '(level, title, page) toc_text,
    mret (toc_text ++ (str_mul "  " (level - 1)%Z ++ "- " ++ title ++
                       " (页码 " ++ str_int page ++ ")" ++ nl)))
    acc s =
  (s, Return (acc ++ concat_all (map toc_entry_line toc))).
Proof.
  revert acc. induction toc as [|[[level title] page] toc IH]; intros acc; simpl.
  - by rewrite str_app_nil_r.
  - rewrite bind_run. simpl. rewrite IH.
    change (concat_all (toc_entry_line (level, title, page) :: map toc_entry_line toc))
      with (toc_entry_line (level, title, page) ++ concat_all (map toc_entry_line toc)).
    by rewrite str_app_assoc.
Qed.

(** The loop that collects the text of the pages. *)
Lemma text_loop_run {S} (ps : list Page) (texts : list string) (acc : string) (s : S) :
  Forall2 (λ p t, get_text p = Return t) ps texts →
  for_each ps (λ page full_text,
    t ← call (get_text page); mret (full_text ++ t)) acc s =
  (s, Return (acc ++ concat_all texts)).
Proof.
  intros H. revert acc. induction H as [|p t ps texts Hp _ IH]; intros acc; simpl.
  - by rewrite str_app_nil_r.
  - rewrite !bind_run. unfold call. rewrite Hp. simpl. rewrite IH.
    change (concat_all (t :: texts)) with (t ++ concat_all texts).
    by rewrite str_app_assoc.
Qed.

Lemma text_loop_state {S} (ps : list Page) (acc : string) (s : S) :
  (for_each ps (λ page full_text,
     t ← call (get_text page); mret (full_text ++ t)) acc s).1 = s.
Proof.
  revert acc. induction ps as [|p ps IH]; intros acc; simpl; [done|].
  rewrite !bind_run. unfold call. destruct (get_text p); simpl; [apply IH | done].
Qed.

(** [pdf_to_text] on a document that opens: the rendered table of
    contents, then the loop over the pages. *)
Lemma pdf_to_text_try_opens {S} (content : bytes) toc ps (s : S) :
  opens L content toc ps →
  pdf_to_text_try L content s =
  (for_each ps (λ page full_text,
     t ← call (get_text page); mret (full_text ++ t)) ""
   ≫= λ full_text, mret (full_text, expected_toc_text toc)) s.
Proof.
  intros Ho. unfold pdf_to_text_try. rewrite bind_run. unfold call at 1.
  rewrite Ho. simpl. rewrite bind_run. unfold call at 1. simpl.
  rewrite bind_run. simpl. rewrite bind_run.
  destruct toc as [|entry toc]; [done|].
  by rewrite toc_loop_run.
Qed.

Lemma pdf_ocr_try_opens (div : Z → Z → result Q) (content : bytes) toc ps pb log :
  opens L content toc ps →
  pdf_ocr_try L div content pb log =
  (for_each (enumerate ps) (ocr_step L div pb (Z.of_nat (length ps))) ""
   ≫= λ full_text, mret (full_text, expected_toc_text toc)) log.
Proof.
  intros Ho. unfold pdf_ocr_try. rewrite bind_run. unfold call at 1.
  rewrite Ho. simpl. rewrite bind_run. unfold call at 1. simpl.
  rewrite bind_run. simpl. rewrite bind_run.
  destruct toc as [|entry toc]; [done|].
  by rewrite toc_loop_run.
Qed.

(** Neither function raises: the handler covers the whole body. *)
Lemma pdf_to_text_returns {S} (content : bytes) (s : S) :
  ∃ s' r, pdf_to_text L content s = (s', Return r).
Proof.
  unfold pdf_to_text, try_except.
  destruct (pdf_to_text_try L content s) as [s' [r|e]]; simpl; eauto.
Qed.

Lemma pdf_ocr_returns (div : Z → Z → result Q) (content : bytes) pb log :
  ∃ log' r, pdf_ocr_with L div content pb log = (log', Return r).
Proof.
  unfold pdf_ocr_with, try_except.
  destruct (pdf_ocr_try L div content pb log) as [s' [r|e]]; simpl; eauto.
Qed.

Lemma pdf_to_text_try_state {S} (content : bytes) (s : S) :
  (pdf_to_text_try L content s).1 = s.
Proof.
  unfold pdf_to_text_try.
  rewrite bind_run. unfold call at 1.
  destruct (fitz_open L content "pdf") as [doc|e]; simpl; [|done].
  rewrite bind_run. unfold call at 1.
  destruct (get_toc doc) as [toc|e]; simpl; [|done].
  rewrite bind_run. simpl. rewrite bind_run.
  assert (∀ toc_text : string,
    ((for_each (pages doc) (λ page full_text,
        t ← call (get_text page); mret (full_text ++ t)) ""
      ≫= λ full_text, mret (full_text, toc_text)) s).1 = s) as Hpages.
  { intros toc_text. rewrite bind_run.
    pose proof (text_loop_state (pages doc) "" s) as Hs.
    by destruct (for_each _ _ _ _) as [s' [t|e]]; simpl in *; subst. }
  destruct toc as [|entry toc].
  - apply Hpages.
  - rewrite toc_loop_run. apply Hpages.
Qed.

Lemma pdf_to_text_state {S} (content : bytes) (s : S) :
  (pdf_to_text L content s).1 = s.
Proof.
  unfold pdf_to_text, try_except.
  pose proof (pdf_to_text_try_state content s) as Hs.
  by destruct (pdf_to_text_try L content s) as [s' [r|e]]; simpl in *; subst.
Qed.

(** The division of line 86 on page [k] of [N]: it returns, and the
    progress element accepts the value. *)
Lemma progress_in_range (k N : nat) :
  (k < N)%nat →
  truediv (Z.of_nat k + 1) (Z.of_nat N) =
    Return (quotient (Z.of_nat k + 1) (Z.of_nat N)) ∧
  Qle_bool 0 (quotient (Z.of_nat k + 1) (Z.of_nat N)) &&
  Qle_bool (quotient (Z.of_nat k + 1) (Z.of_nat N)) 1 = true.
Proof.
  intros Hk.
  destruct (truediv_in_range (Z.of_nat k + 1) (Z.of_nat N) ltac:(lia))
    as (v & Hv & H0 & H1).
  unfold quotient. rewrite Hv. split; [done|].
  apply andb_true_intro; split; by apply Qle_bool_iff.
Qed.

(** The OCR loop on pages that can all be read: page after page, the
    engine is started, then the sink is told; the text grows by a header
    and the recognised text. *)
Lemma ocr_loop_run (N i : nat) (ps : list Page) (texts : list string) acc log :
  Forall2 (λ p t, page_ocr L p = Return t) ps texts →
  (i + length ps ≤ N)%nat →
  for_each (enumerate_from i ps)
    (ocr_step L truediv st_progress_bar (Z.of_nat N)) acc log =
  ((log ++ flat_map (page_events L N) (enumerate_from i ps))%list,
   Return (acc ++ concat_all (map page_block (enumerate_from i texts)))).
Proof.
  intros H. revert i acc log.
  induction H as [|p t ps texts Hp _ IH]; intros i acc log Hi; simpl.
  - by rewrite app_nil_r, str_app_nil_r.
  - simpl in Hi. rewrite bind_run.
    unfold page_events at 1, page_image. unfold page_ocr in Hp. simpl.
    unfold ocr_step at 1. rewrite bind_run. unfold call at 1.
    destruct (get_pixmap p 300) as [pix|e]; [simpl|done].
    rewrite bind_run. unfold call at 1.
    destruct (Image_frombytes L "RGB" _ _) as [img|e]; [simpl|done].
    rewrite bind_run. unfold image_to_string at 1. rewrite Hp. simpl.
    destruct (progress_in_range i N ltac:(lia)) as [Hdiv Hrange].
    rewrite bind_run. unfold call at 1. rewrite Hdiv. simpl.
    rewrite bind_run. simpl. rewrite Hrange. simpl.
    rewrite IH by lia. f_equal.
    + by rewrite <- !app_assoc.
    + change (concat_all (page_block (i, t) :: map page_block (enumerate_from (S i) texts)))
        with (page_block (i, t) ++ concat_all (map page_block (enumerate_from (S i) texts))).
      unfold page_block at 2, page_header. simpl.
      by rewrite !str_app_assoc.
Qed.

End PdfFacts.

Lemma page_blocks_imap (i : nat) (texts : list string) :
  map Pdf.page_block (enumerate_from i texts) =
  imap (λ k t, Pdf.page_header (Z.of_nat (i + k) + 1) ++ t) texts.
Proof.
  revert i. induction texts as [|t texts IH]; intros i; [done|].
  simpl. rewrite IH. f_equal.
  - unfold Pdf.page_block. simpl. by rewrite Nat.add_0_r.
  - apply imap_ext. intros k t' _. simpl. do 3 f_equal. lia.
Qed.

(** C3. A byte stream that PyMuPDF refuses to open makes both functions
    return, not raise: the first component is an error message (a fixed
    prefix followed by the description of the exception), the second is
    the empty string; [pdf_ocr] has not touched the progress sink. *)
Theorem pdf_corrupt_stream_is_reported (L : Pdf.Libs) (file_content : bytes)
    (e : Exn) :
  Pdf.fitz_open L file_content "pdf" = Raise e →
  (∀ (S : Type) (s : S),
     Pdf.pdf_to_text L file_content s =
     (s, Return ("处理PDF文件时出错: " ++ exn_str e, ""))) ∧
  (∀ (progress_bar : Pdf.ProgressBar) (log : list Pdf.Event),
     Pdf.pdf_ocr L file_content progress_bar log =
     (log, Return ("OCR处理PDF时出错: " ++ exn_str e, ""))).
Proof.
  intros Ho. split.
  - intros S s. unfold Pdf.pdf_to_text, try_except, Pdf.pdf_to_text_try.
    rewrite bind_run. unfold call at 1. by rewrite Ho.
  - intros pb log.
    unfold Pdf.pdf_ocr, Pdf.pdf_ocr_with, try_except, Pdf.pdf_ocr_try.
    rewrite bind_run. unfold call at 1. by rewrite Ho.
Qed.

Lemma pdf_corrupt_stream_is_reported_witness :
  Pdf.pdf_to_text Demo.pdf_libs (Demo.b "not a pdf") tt =
    (tt, Return ("处理PDF文件时出错: " ++ exn_str Demo.FileDataError, "")) ∧
  Pdf.pdf_ocr Demo.pdf_libs (Demo.b "not a pdf") Pdf.st_progress_bar [] =
    ([], Return ("OCR处理PDF时出错: " ++ exn_str Demo.FileDataError, "")).
Proof.
  destruct (pdf_corrupt_stream_is_reported Demo.pdf_libs (Demo.b "not a pdf")
              Demo.FileDataError) as [Htext Hocr]; [reflexivity|].
  split; [apply Htext | apply Hocr].
Defined.

(** C4. For a PDF that opens and whose pages all yield text, the table of
    contents returned by [pdf_to_text] is the header line followed, when
    the document has no entry, by the fixed sentinel line, and otherwise by
    one line per entry, in order: [level - 1] indents of two spaces, then
    [- title (页码 page)], the page as a decimal numeral, and a line feed.
    So a level-1 entry ("Chapter 1", 5) gives [- Chapter 1 (页码 5)], and
    an entry one level deeper has one more indent. *)
Theorem pdf_to_text_toc_rendering (L : Pdf.Libs) (file_content : bytes)
    (toc : list Pdf.TocEntry) (ps : list Pdf.Page) (texts : list string)
    (S : Type) (s : S) :
  Pdf.opens L file_content toc ps →
  Forall2 (λ p t, Pdf.get_text p = Return t) ps texts →
  Pdf.pdf_to_text L file_content s =
    (s, Return (concat_all texts, Pdf.expected_toc_text toc)) ∧
  (∃ rest, Pdf.expected_toc_text toc = ("目录:" ++ nl) ++ rest) ∧
  (toc = [] →
   Pdf.expected_toc_text toc = ("目录:" ++ nl) ++ "未找到目录。" ++ nl) ∧
  (toc ≠ [] →
   Pdf.expected_toc_text toc =
   ("目录:" ++ nl) ++ concat_all (map Pdf.toc_entry_line toc)) ∧
  (∀ level title page, ∃ numeral,
     decimal_value numeral = Some page ∧
     Pdf.toc_entry_line (level, title, page) =
     String.concat "" (repeat "  " (Z.to_nat (level - 1))) ++
     "- " ++ title ++ " (页码 " ++ numeral ++ ")" ++ nl) ∧
  Pdf.toc_entry_line (1%Z, "Chapter 1", 5%Z) = "- Chapter 1 (页码 5)" ++ nl ∧
  (∀ level title page, (1 ≤ level)%Z →
     Pdf.toc_entry_line ((level + 1)%Z, title, page) =
     "  " ++ Pdf.toc_entry_line (level, title, page)).
Proof.
  intros Ho Ht. split; [|split; [|split; [|split; [|split; [|split]]]]].
  - unfold Pdf.pdf_to_text, try_except.
    rewrite (pdf_to_text_try_opens L file_content toc ps s Ho).
    rewrite bind_run. by rewrite (text_loop_run ps texts "" s Ht).
  - unfold Pdf.expected_toc_text. eauto.
  - by intros ->.
  - by destruct toc.
  - intros level title page. exists (str_int page).
    split; [apply str_int_decimal|].
    unfold Pdf.toc_entry_line. by rewrite str_repeat_concat.
  - vm_compute. reflexivity.
  - intros level title page Hlevel. unfold Pdf.toc_entry_line.
    replace (Z.to_nat (level + 1 - 1)) with (Datatypes.S (Z.to_nat (level - 1))) by lia.
    change (str_repeat "  " (Datatypes.S ?n)) with ("  " ++ str_repeat "  " n).
    by rewrite !str_app_assoc.
Qed.

Lemma pdf_to_text_toc_rendering_witness :
  Pdf.pdf_to_text Demo.pdf_libs Demo.pdf_file tt =
  (tt, Return ("onetwothree",
               "目录:" ++ nl ++ "- Chapter 1 (页码 5)" ++ nl ++
               "  - Section 1.1 (页码 6)" ++ nl)).
Proof.
  rewrite (proj1 (pdf_to_text_toc_rendering Demo.pdf_libs Demo.pdf_file Demo.toc
    [Demo.page "one"; Demo.page "two"; Demo.page "three"]
    ["one"; "two"; "three"] unit tt eq_refl
    ltac:(repeat constructor))).
  reflexivity.
Defined.

(** C7. For a PDF that opens and whose pages can all be rasterised and
    recognised, the full text returned by [pdf_ocr] is the concatenation,
    in page order, of one block per page: the delimiter of the page,
    which is the line [--- Page n ---] between two line feeds, [n] being
    the number of the page counted from 1 as a decimal numeral, followed
    by the recognised text of the page. *)
Theorem pdf_ocr_full_text (L : Pdf.Libs) (file_content : bytes)
    (toc : list Pdf.TocEntry) (ps : list Pdf.Page) (texts : list string)
    (log : list Pdf.Event) :
  Pdf.opens L file_content toc ps →
  Forall2 (λ p t, Pdf.page_ocr L p = Return t) ps texts →
  (Pdf.pdf_ocr L file_content Pdf.st_progress_bar log).2 =
    Return (concat_all
              (imap (λ i t, Pdf.page_header (Z.of_nat i + 1) ++ t) texts),
            Pdf.expected_toc_text toc) ∧
  (∀ n, ∃ numeral,
     decimal_value numeral = Some n ∧
     Pdf.page_header n = nl ++ "--- Page " ++ numeral ++ " ---" ++ nl).
Proof.
  intros Ho Ht. split.
  - unfold Pdf.pdf_ocr, Pdf.pdf_ocr_with, try_except.
    rewrite (pdf_ocr_try_opens L truediv file_content toc ps _ log Ho).
    rewrite bind_run. unfold enumerate.
    rewrite (ocr_loop_run L (length ps) 0 ps texts "" log Ht) by lia.
    simpl. by rewrite page_blocks_imap.
  - intros n. exists (str_int n). split; [apply str_int_decimal | done].
Qed.

Lemma pdf_ocr_full_text_witness :
  (Pdf.pdf_ocr Demo.pdf_libs Demo.pdf_file Pdf.st_progress_bar []).2 =
  Return (nl ++ "--- Page 1 ---" ++ nl ++ "one" ++
          nl ++ "--- Page 2 ---" ++ nl ++ "two" ++
          nl ++ "--- Page 3 ---" ++ nl ++ "three",
          Pdf.expected_toc_text Demo.toc).
Proof.
  rewrite (proj1 (pdf_ocr_full_text Demo.pdf_libs Demo.pdf_file Demo.toc
    [Demo.page "one"; Demo.page "two"; Demo.page "three"]
    ["one"; "two"; "three"] [] eq_refl ltac:(repeat constructor))).
  reflexivity.
Defined.

(** The claim of the specification read to the letter, the delimiter
    being [--- Page n ---] and nothing else, fails on a document of three
    pages: the code puts a line feed before and after each delimiter. *)
Lemma pdf_ocr_full_text_counterexample :
  (Pdf.pdf_ocr Demo.pdf_libs Demo.pdf_file Pdf.st_progress_bar []).2 ≠
  Return ("--- Page 1 ---" ++ "one" ++ "--- Page 2 ---" ++ "two" ++
          "--- Page 3 ---" ++ "three",
          Pdf.expected_toc_text Demo.toc).
Proof. vm_compute. discriminate. Qed.

(** C8. When the [try] blocks of both functions run through on the same
    bytes, both return what their blocks produced, and the two tables of
    contents are the same string. *)
Theorem pdf_toc_same_in_both (L : Pdf.Libs) (file_content : bytes)
    (progress_bar : Pdf.ProgressBar) (S : Type) (s s1 : S)
    (log log1 : list Pdf.Event) (text toc_text ocr_text ocr_toc_text : string) :
  Pdf.pdf_to_text_try L file_content s = (s1, Return (text, toc_text)) →
  Pdf.pdf_ocr_try L truediv file_content progress_bar log =
    (log1, Return (ocr_text, ocr_toc_text)) →
  Pdf.pdf_to_text L file_content s = (s1, Return (text, toc_text)) ∧
  Pdf.pdf_ocr L file_content progress_bar log =
    (log1, Return (ocr_text, ocr_toc_text)) ∧
  ocr_toc_text = toc_text.
Proof.
  intros Htext Hocr. split; [|split].
  - unfold Pdf.pdf_to_text, try_except. by rewrite Htext.
  - unfold Pdf.pdf_ocr, Pdf.pdf_ocr_with, try_except. by rewrite Hocr.
  - destruct (Pdf.fitz_open L file_content "pdf") as [[[toc|e] ps]|e] eqn:Ho.
    + rewrite (pdf_to_text_try_opens L file_content toc ps s Ho) in Htext.
      rewrite (pdf_ocr_try_opens L truediv file_content toc ps _ log Ho) in Hocr.
      rewrite bind_run in Htext. rewrite bind_run in Hocr.
      destruct (for_each ps _ _ _) as [? [?|?]]; [|done].
      destruct (for_each (enumerate ps) _ _ _) as [? [?|?]]; [|done].
      unfold mret, M_ret in Htext, Hocr. congruence.
    + unfold Pdf.pdf_to_text_try in Htext. rewrite bind_run in Htext.
      unfold call at 1 in Htext. rewrite Ho in Htext. simpl in Htext.
      rewrite bind_run in Htext. done.
    + unfold Pdf.pdf_to_text_try in Htext. rewrite bind_run in Htext.
      unfold call at 1 in Htext. by rewrite Ho in Htext.
Qed.

Lemma pdf_toc_same_in_both_witness :
  Pdf.pdf_to_text Demo.pdf_libs Demo.pdf_file tt =
    (tt, Return ("onetwothree", Pdf.expected_toc_text Demo.toc)) ∧
  (Pdf.pdf_ocr Demo.pdf_libs Demo.pdf_file Pdf.st_progress_bar []).2 =
    Return (concat_all (map Pdf.page_block (enumerate ["one"; "two"; "three"])),
            Pdf.expected_toc_text Demo.toc).
Proof.
  destruct (pdf_toc_same_in_both Demo.pdf_libs Demo.pdf_file Pdf.st_progress_bar
    unit tt tt [] (Pdf.pdf_ocr Demo.pdf_libs Demo.pdf_file Pdf.st_progress_bar []).1
    "onetwothree" (Pdf.expected_toc_text Demo.toc)
    (concat_all (map Pdf.page_block (enumerate ["one"; "two"; "three"])))
    (Pdf.expected_toc_text Demo.toc)) as (Htext & Hocr & _).
  - reflexivity.
  - reflexivity.
  - split; [exact Htext | by rewrite Hocr].
Defined.

(** C10. On a PDF that opens with zero pages, [pdf_ocr] returns the empty
    full text and the rendered table of contents and leaves the observed
    events as they were: the loop body is not entered.  This holds for
    every sink, so the sink is never invoked, and for every division put
    at line 86, also one that always raises, so the division is never
    evaluated. *)
Theorem pdf_ocr_zero_pages (L : Pdf.Libs) (file_content : bytes)
    (toc : list Pdf.TocEntry) :
  Pdf.opens L file_content toc [] →
  (∀ (div : Z → Z → result Q) (progress_bar : Pdf.ProgressBar)
     (log : list Pdf.Event),
     Pdf.pdf_ocr_with L div file_content progress_bar log =
     (log, Return ("", Pdf.expected_toc_text toc))) ∧
  (∀ (progress_bar : Pdf.ProgressBar) (log : list Pdf.Event),
     Pdf.pdf_ocr L file_content progress_bar log =
     (log, Return ("", Pdf.expected_toc_text toc))) ∧
  truediv 1 (Z.of_nat (length (@nil Pdf.Page))) = Raise ZeroDivisionError.
Proof.
  intros Ho.
  assert (∀ div pb log, Pdf.pdf_ocr_with L div file_content pb log =
            (log, Return ("", Pdf.expected_toc_text toc))) as Hrun.
  { intros div pb log. unfold Pdf.pdf_ocr_with, try_except.
    by rewrite (pdf_ocr_try_opens L div file_content toc [] pb log Ho). }
  split; [exact Hrun | split; [|done]].
  intros pb log. apply Hrun.
Qed.

Lemma pdf_ocr_zero_pages_witness :
  Pdf.pdf_ocr_with Demo.pdf_libs (λ _ _, Raise ZeroDivisionError)
    Demo.empty_pdf_file (Pdf.mkProgressBar (λ _, raise Demo.ENOSPC)) [] =
  ([], Return ("", Pdf.expected_toc_text [])).
Proof.
  refine (proj1 (pdf_ocr_zero_pages Demo.pdf_libs Demo.empty_pdf_file [] _) _ _ _).
  reflexivity.
Defined.

(** ** What the progress sink observes *)

Section OcrTrace.
Import Pdf.
Variable L : Libs.

Lemma page_ocr_image (p : Page) (t : string) :
  page_ocr L p = Return t → ∃ img, page_image L p = Return img.
Proof.
  unfold page_ocr, page_image.
  destruct (get_pixmap p 300) as [pix|e]; [|done].
  destruct (Image_frombytes L "RGB" _ _) as [img|e]; [eauto|done].
Qed.


Lemma pos_of_nat_Z (N : nat) : (1 ≤ N)%nat → Z.pos (Pos.of_nat N) = Z.of_nat N.
Proof.
  intros HN. rewrite <- positive_nat_Z. rewrite Nat2Pos.id by lia. done.
Qed.



Lemma trace_progress_values (N i : nat) (ps : list Page) (texts : list string) :
  Forall2 (λ p t, page_ocr L p = Return t) ps texts →
  progress_values (flat_map (page_events L N) (enumerate_from i ps)) =
  map (λ k, quotient (Z.of_nat k + 1) (Z.of_nat N)) (seq i (length ps)).
Proof.
  intros H. revert i. induction H as [|p t ps texts Hp _ IH]; intros i; [done|].
  destruct (page_ocr_image p t Hp) as [img Himg].
  simpl. unfold page_events at 1. simpl. rewrite Himg. simpl.
  unfold progress_values in *. simpl. by rewrite IH.
Qed.

End OcrTrace.





(** ** The session state *)

Section AppFacts.
Import App.
Variable L : Libs.
Variable W : Widgets.

Lemma set_slot_run (key : string) (v : PyVal) σ d ev :
  set_slot key v (mkWorld σ d ev) = (mkWorld (<[key := v]> σ) d ev, Return tt).
Proof. done. Qed.

Lemma init_key_lookup (key k : string) (σ : gmap string PyVal) :
  init_key key σ !! k =
  if decide (key = k) then Some (default PyNone (σ !! key)) else σ !! k.
Proof.
  unfold init_key. destruct (σ !! key) as [v|] eqn:Hkey.
  - case_decide; [subst; by rewrite Hkey | done].
  - case_decide; [subst; by rewrite lookup_insert_eq |
                  by rewrite lookup_insert_ne].
Qed.

Lemma init_slot_eq (key : string) σ d ev :
  init_slot key (mkWorld σ d ev) = (mkWorld (init_key key σ) d ev, Return tt).
Proof. unfold init_slot, init_key. simpl. by destruct (σ !! key). Qed.

(** Lines 100-107, followed by anything. *)
Lemma inits_then {A} (k : M World A) σ d ev :
  (init_slot "processed_text";; init_slot "file_name";;
   init_slot "toc";; init_slot "secondary_text";; k) (mkWorld σ d ev) =
  k (mkWorld (init_all σ) d ev).
Proof.
  rewrite bind_run, init_slot_eq, bind_run, init_slot_eq.
  rewrite bind_run, init_slot_eq, bind_run, init_slot_eq. done.
Qed.

Lemma init_all_slots (σ : gmap string PyVal) :
  init_all σ !! "processed_text" = Some (default PyNone (σ !! "processed_text")) ∧
  init_all σ !! "file_name" = Some (default PyNone (σ !! "file_name")) ∧
  init_all σ !! "toc" = Some (default PyNone (σ !! "toc")) ∧
  init_all σ !! "secondary_text" = Some (default PyNone (σ !! "secondary_text")).
Proof.
  unfold init_all. rewrite !init_key_lookup.
  repeat split; repeat case_decide; done.
Qed.

Lemma init_all_present (σ : gmap string PyVal) : slots_present (init_all σ).
Proof.
  destruct (init_all_slots σ) as (H1 & H2 & H3 & H4).
  unfold slots_present. rewrite H1, H2, H3, H4. eauto.
Qed.

Lemma init_all_id (σ : gmap string PyVal) : slots_present σ → init_all σ = σ.
Proof.
  intros ([v1 H1] & [v2 H2] & [v3 H3] & [v4 H4]).
  unfold init_all, init_key. by rewrite H1, H2, H3, H4.
Qed.

Lemma init_all_named (σ : gmap string PyVal) :
  named_result σ → named_result (init_all σ).
Proof.
  intros Hn v Hv Ht.
  destruct (init_all_slots σ) as (H1 & H2 & _). rewrite H1 in Hv.
  destruct (σ !! "processed_text") as [v'|] eqn:Hpt; simpl in Hv.
  - injection Hv as ->. destruct (Hn v Hpt Ht) as [fname Hf].
    exists fname. by rewrite H2, Hf.
  - injection Hv as <-. done.
Qed.

(** The text loop and [pdf_to_text] do not read the state they run on. *)
Lemma text_loop_pure {S} (ps : list Pdf.Page) (acc : string) (s : S) :
  for_each ps (λ page full_text,
    t ← call (Pdf.get_text page); mret (full_text ++ t)) acc s =
  (s, (for_each ps (λ page full_text,
         t ← call (Pdf.get_text page); mret (full_text ++ t)) acc tt).2).
Proof.
  revert acc. induction ps as [|p ps IH]; intros acc; simpl; [done|].
  rewrite !bind_run. unfold call.
  destruct (Pdf.get_text p) as [t|e]; simpl; [|done].
  apply IH.
Qed.

Lemma pdf_to_text_try_pure {S} (content : bytes) (s : S) :
  Pdf.pdf_to_text_try (pdf_libs L) content s =
  (s, (Pdf.pdf_to_text_try (pdf_libs L) content tt).2).
Proof.
  destruct (Pdf.fitz_open (pdf_libs L) content "pdf") as [[[toc|e] ps]|e] eqn:Ho.
  - rewrite !(pdf_to_text_try_opens _ content toc ps _ Ho).
    rewrite !bind_run. rewrite text_loop_pure.
    by destruct (for_each _ _ _ tt) as [? [?|?]].
  - unfold Pdf.pdf_to_text_try. rewrite !bind_run. unfold call at 1 3.
    rewrite Ho. simpl. by rewrite !bind_run.
  - unfold Pdf.pdf_to_text_try. rewrite !bind_run. unfold call at 1 3.
    by rewrite Ho.
Qed.

Lemma pdf_to_text_pure {S} (content : bytes) (s : S) :
  Pdf.pdf_to_text (pdf_libs L) content s =
  (s, (Pdf.pdf_to_text (pdf_libs L) content tt).2).
Proof.
  unfold Pdf.pdf_to_text, try_except. rewrite pdf_to_text_try_pure.
  by destruct (Pdf.pdf_to_text_try _ _ tt) as [? [?|?]].
Qed.

(** The three branches once their button is pressed. *)
Lemma epub_branch_run (content : bytes) (base : string) σ d ev d' text :
  button W "将 EPUB 转换为 TXT" = true →
  Epub.epub_to_text (epub_libs L) content d = (d', Return text) →
  epub_branch L W content base (mkWorld σ d ev) =
  (mkWorld (<["secondary_text" := PyNone]> (<["toc" := PyNone]>
            (<["file_name" := PyStr (base ++ "_epub.txt")]>
            (<["processed_text" := PyStr text]> σ)))) d' ev, Return tt).
Proof.
  intros Hb Hrun. unfold epub_branch. rewrite Hb.
  rewrite bind_run. unfold on_disk. simpl. rewrite Hrun.
  do 3 (rewrite bind_run; simpl). done.
Qed.

(** An exception of [epub_to_text] ends the branch before any slot is
    assigned. *)
Lemma epub_branch_raises (content : bytes) (base : string) σ d ev d' e :
  button W "将 EPUB 转换为 TXT" = true →
  Epub.epub_to_text (epub_libs L) content d = (d', Raise e) →
  epub_branch L W content base (mkWorld σ d ev) = (mkWorld σ d' ev, Raise e).
Proof.
  intros Hb Hrun. unfold epub_branch. rewrite Hb.
  rewrite bind_run. unfold on_disk. simpl. by rewrite Hrun.
Qed.

Lemma pdf_text_branch_run (content : bytes) (base : string) σ d ev text toc :
  button W "开始提取文本" = true →
  (Pdf.pdf_to_text (pdf_libs L) content tt).2 = Return (text, toc) →
  pdf_text_branch L W content base (mkWorld σ d ev) =
  (mkWorld (<["secondary_text" := PyNone]>
            (<["file_name" := PyStr (base ++ "_text.txt")]>
            (<["toc" := PyStr toc]>
            (<["processed_text" := PyStr text]> σ)))) d ev, Return tt).
Proof.
  intros Hb Hrun. unfold pdf_text_branch. rewrite Hb.
  rewrite bind_run, pdf_to_text_pure, Hrun. simpl.
  do 3 (rewrite bind_run; simpl). done.
Qed.

Lemma pdf_ocr_branch_run (content : bytes) (base : string) σ d ev ev'
    ocr_text toc text_only toc' :
  button W "开始OCR识别" = true →
  Pdf.pdf_ocr (pdf_libs L) content Pdf.st_progress_bar
    (ev ++ [Pdf.EvProgress 0])%list = (ev', Return (ocr_text, toc)) →
  (Pdf.pdf_to_text (pdf_libs L) content tt).2 = Return (text_only, toc') →
  pdf_ocr_branch L W content base (mkWorld σ d ev) =
  (mkWorld (<["secondary_text" :=
               if checkbox W "同时输出一份纯文本提取的TXT文件 (作为对比或备用)"
               then PyStr text_only else PyNone]>
            (<["file_name" := PyStr (base ++ "_ocr.txt")]>
            (<["toc" := PyStr toc]>
            (<["processed_text" := PyStr ocr_text]> σ)))) d ev', Return tt).
Proof.
  intros Hb Hocr Htext. unfold pdf_ocr_branch. rewrite Hb.
  rewrite bind_run. unfold st_progress. rewrite bind_run.
  unfold on_events at 1. simpl.
  rewrite bind_run. unfold on_events. simpl. rewrite Hocr.
  do 3 (rewrite bind_run; simpl). rewrite bind_run.
  destruct (checkbox W _).
  - by rewrite bind_run, pdf_to_text_pure, Htext.
  - done.
Qed.

(** Lines 100-160 once the upload widget has answered. *)
Lemma script_uploaded (u : option UploadedFile) σ d ev :
  file_uploader W "上传你的 EPUB 或 PDF 文件" ["epub"; "pdf"] = Return u →
  script L W (mkWorld σ d ev) =
  match u with
  | None => mret tt
  | Some uploaded_file =>
      if str_endswith (name uploaded_file) ".epub" then
        epub_branch L W (getvalue uploaded_file)
          (splitext L (name uploaded_file)).1
      else if str_endswith (name uploaded_file) ".pdf" then
        if decide (radio W "选择PDF处理模式:" = "提取文本 (适用于文本型PDF)") then
          pdf_text_branch L W (getvalue uploaded_file)
            (splitext L (name uploaded_file)).1
        else
          pdf_ocr_branch L W (getvalue uploaded_file)
            (splitext L (name uploaded_file)).1
      else mret tt
  end (mkWorld (init_all σ) d ev).
Proof.
  intros Hu. unfold script. rewrite inits_then, bind_run. unfold call.
  by rewrite Hu.
Qed.

(** What a run of lines 100-160 does to the world.  It raises what the
    upload widget or [os.unlink] raised, and then no slot has been
    assigned; or no conversion is triggered and nothing changes beyond
    the initialisation of the slots; or a conversion leaves a text and a
    file name. *)
Lemma script_outcome σ d ev :
  ∃ σ' d' ev' r,
    script L W (mkWorld σ d ev) = (mkWorld σ' d' ev', r) ∧
    ((∃ e, r = Raise e ∧ σ' = init_all σ ∧
           (file_uploader W "上传你的 EPUB 或 PDF 文件" ["epub"; "pdf"] = Raise e ∨
            Epub.unlink_error (epub_libs L) (Epub.tmp_name (epub_libs L)) = Some e)) ∨
     (r = Return tt ∧ conversion_triggered W = false ∧
      (∃ u, file_uploader W "上传你的 EPUB 或 PDF 文件" ["epub"; "pdf"] = Return u) ∧
      σ' = init_all σ ∧ d' = d ∧ ev' = ev) ∨
     (r = Return tt ∧ conversion_triggered W = true ∧
      ∃ text fname,
        σ' !! "processed_text" = Some (PyStr text) ∧
        σ' !! "file_name" = Some (PyStr fname) ∧
        is_Some (σ' !! "toc") ∧ is_Some (σ' !! "secondary_text"))).
Proof.
  unfold conversion_triggered.
  destruct (file_uploader W _ _) as [u|e] eqn:Hu.
  2:{ unfold script. rewrite inits_then, bind_run. unfold call. rewrite Hu.
      do 4 eexists. split; [done|]. left. by eauto. }
  rewrite (script_uploaded u _ _ _ Hu).
  destruct u as [f|]; [|do 4 eexists; split; [done|]; right; left; by eauto 10].
  destruct (str_endswith (name f) ".epub").
  - destruct (button W "将 EPUB 转换为 TXT") eqn:Hb.
    + destruct (epub_to_text_outcome (epub_libs L) (getvalue f) d)
        as (d' & [[text Hrun]|(e & Hrun & Hunlink)]).
      * rewrite (epub_branch_run _ _ _ _ _ _ _ Hb Hrun).
        do 4 eexists. split; [done|]. right; right.
        split; [done|]. split; [done|].
        do 2 eexists. by simplify_map_eq.
      * rewrite (epub_branch_raises _ _ _ _ _ _ _ Hb Hrun).
        do 4 eexists. split; [done|]. left. by eauto.
    + unfold epub_branch. rewrite Hb.
      do 4 eexists. split; [done|]. right; left. by eauto 10.
  - destruct (str_endswith (name f) ".pdf");
      [|do 4 eexists; split; [done|]; right; left; by eauto 10].
    destruct (pdf_to_text_returns (pdf_libs L) (getvalue f) tt)
      as (s' & [text toc] & Htext).
    assert ((Pdf.pdf_to_text (pdf_libs L) (getvalue f) tt).2 =
            Return (text, toc)) as Htext' by (by rewrite Htext).
    destruct (decide (radio W "选择PDF处理模式:" = _)).
    + destruct (button W "开始提取文本") eqn:Hb.
      * rewrite (pdf_text_branch_run _ _ _ _ _ _ _ Hb Htext').
        do 4 eexists. split; [done|]. right; right.
        split; [done|]. split; [done|].
        do 2 eexists. by simplify_map_eq.
      * unfold pdf_text_branch. rewrite Hb.
        do 4 eexists. split; [done|]. right; left. by eauto 10.
    + destruct (button W "开始OCR识别") eqn:Hb.
      * destruct (pdf_ocr_returns (pdf_libs L) truediv (getvalue f)
                    Pdf.st_progress_bar (ev ++ [Pdf.EvProgress 0])%list)
          as (ev' & [ocr_text toc2] & Hocr).
        rewrite (pdf_ocr_branch_run _ _ _ _ _ _ _ _ _ _ Hb Hocr Htext').
        do 4 eexists. split; [done|]. right; right.
        split; [done|]. split; [done|].
        do 2 eexists. by simplify_map_eq.
      * unfold pdf_ocr_branch. rewrite Hb.
        do 4 eexists. split; [done|]. right; left. by eauto 10.
Qed.

End AppFacts.

(** C9. In a run of the script in which a conversion is triggered (EPUB
    conversion, PDF text extraction or PDF OCR), the script returns
    normally with all four slots of the session state assigned, and the
    four values do not depend on what the session state held before: the
    previous primary and secondary results are both replaced, none
    survives.  Each slot being a key of a dictionary, it holds one value
    at a time.  The one other outcome is that [os.unlink] raises inside
    [epub_to_text]: the exception then ends the run before any of the four
    assignments, whatever the session state held. *)
Theorem conversion_overwrites_all_slots (L : App.Libs) (W : App.Widgets)
    (disk : gmap string bytes) (events : list Pdf.Event) :
  App.conversion_triggered W = true →
  (∃ processed_text file_name toc secondary_text disk' events',
    ∀ σ : gmap string App.PyVal, ∃ σ',
      App.script L W (App.mkWorld σ disk events) =
        (App.mkWorld σ' disk' events', Return tt) ∧
      App.slots σ' =
        (Some processed_text, Some file_name, Some toc, Some secondary_text)) ∨
  (∃ e disk',
    Epub.unlink_error (App.epub_libs L) (Epub.tmp_name (App.epub_libs L)) = Some e ∧
    ∀ σ : gmap string App.PyVal,
      App.script L W (App.mkWorld σ disk events) =
        (App.mkWorld (App.init_all σ) disk' events, Raise e)).
Proof.
  intros Ht. unfold App.conversion_triggered in Ht.
  destruct (App.file_uploader W _ _) as [[f|]|?] eqn:Hu; [|done..].
  destruct (App.str_endswith (App.name f) ".epub") eqn:Hepub.
  - destruct (epub_to_text_outcome (App.epub_libs L) (App.getvalue f) disk)
      as (d' & [[text Hrun]|(e & Hrun & Hunlink)]).
    + left. do 6 eexists. intros σ. eexists.
      rewrite (script_uploaded L W _ _ _ _ Hu), Hepub.
      rewrite (epub_branch_run L W _ _ _ _ _ _ _ Ht Hrun).
      split; [done|]. unfold App.slots. by simplify_map_eq.
    + right. exists e, d'. split; [done|]. intros σ.
      rewrite (script_uploaded L W _ _ _ _ Hu), Hepub.
      by rewrite (epub_branch_raises L W _ _ _ _ _ _ _ Ht Hrun).
  - left. destruct (App.str_endswith (App.name f) ".pdf") eqn:Hpdf; [|done].
    destruct (pdf_to_text_returns (App.pdf_libs L) (App.getvalue f) tt)
      as (s' & [text toc] & Htext).
    assert ((Pdf.pdf_to_text (App.pdf_libs L) (App.getvalue f) tt).2 =
            Return (text, toc)) as Htext' by (by rewrite Htext).
    destruct (decide (App.radio W "选择PDF处理模式:" = _)) as [Hmode|Hmode].
    + do 6 eexists. intros σ. eexists.
      rewrite (script_uploaded L W _ _ _ _ Hu), Hepub, Hpdf.
      rewrite decide_True by done.
      rewrite (pdf_text_branch_run L W _ _ _ _ _ _ _ Ht Htext').
      split; [done|]. unfold App.slots. by simplify_map_eq.
    + destruct (pdf_ocr_returns (App.pdf_libs L) truediv (App.getvalue f)
                  Pdf.st_progress_bar (events ++ [Pdf.EvProgress 0])%list)
        as (ev' & [ocr_text toc2] & Hocr).
      do 6 eexists. intros σ. eexists.
      rewrite (script_uploaded L W _ _ _ _ Hu), Hepub, Hpdf.
      rewrite decide_False by done.
      rewrite (pdf_ocr_branch_run L W _ _ _ _ _ _ _ _ _ _ Ht Hocr Htext').
      split; [done|]. unfold App.slots. by simplify_map_eq.
Qed.

Lemma conversion_overwrites_all_slots_witness :
  ∃ processed_text file_name toc secondary_text disk' events',
    ∀ σ : gmap string App.PyVal, ∃ σ',
      App.script Demo.app_libs Demo.epub_click (App.mkWorld σ ∅ []) =
        (App.mkWorld σ' disk' events', Return tt) ∧
      App.slots σ' =
        (Some processed_text, Some file_name, Some toc, Some secondary_text).
Proof.
  destruct (conversion_overwrites_all_slots Demo.app_libs Demo.epub_click ∅ [])
    as [Hslots|(e & disk' & Hunlink & _)].
  - reflexivity.
  - exact Hslots.
  - discriminate Hunlink.
Defined.

(** * Further properties of the code *)

Lemma for_each_app {S A B} (l1 l2 : list A) (body : A → B → M S B) acc s :
  for_each (l1 ++ l2) body acc s =
  (for_each l1 body acc ≫= for_each l2 body) s.
Proof.
  revert acc s. induction l1 as [|x l1 IH]; intros acc s.
  - rewrite bind_run. done.
  - simpl. rewrite !bind_run.
    destruct (body x acc s) as [s' [a|e]]; [|done].
    rewrite IH. by rewrite bind_run.
Qed.

Lemma enumerate_from_app {A} (l1 l2 : list A) i :
  enumerate_from i (l1 ++ l2) =
  (enumerate_from i l1 ++ enumerate_from (i + length l1) l2)%list.
Proof.
  revert i. induction l1 as [|x l1 IH]; intros i; simpl.
  - by rewrite Nat.add_0_r.
  - rewrite IH. do 3 f_equal. lia.
Qed.

(** ** EPUB: the exit paths of [epub_to_text] *)

(** X1. Whenever neither writing the content to the temporary file nor
    [os.unlink] raises, [epub_to_text] leaves the disk exactly as it found
    it, whether the conversion succeeds or fails in between: the temporary
    file is gone and no other file is created, changed or removed. *)
Theorem epub_leaves_disk_as_found (L : Epub.Libs) (file_content : bytes)
    (disk : gmap string bytes) :
  Epub.write_error L file_content = None →
  Epub.unlink_error L (Epub.tmp_name L) = None →
  (Epub.epub_to_text L file_content disk).1 = disk.
Proof. apply epub_disk_restored. Qed.

Lemma epub_leaves_disk_as_found_witness :
  (Epub.epub_to_text Demo.epub_libs (Demo.b "junk") Demo.notes).1 = Demo.notes.
Proof. apply epub_leaves_disk_as_found; reflexivity. Defined.

(** X2. When the bytes are not an EPUB that ebooklib can read
    ([epub.read_epub] raises [e]), [epub_to_text] returns the message made
    of the fixed prefix and [str(e)], and the temporary copy of the bytes
    has been removed again.  (Should [os.unlink] raise, its exception
    reaches the caller instead and the copy stays.) *)
Theorem epub_unreadable_file_reported (L : Epub.Libs) (file_content : bytes)
    (disk : gmap string bytes) (e : Exn) :
  Epub.create_error L = None →
  disk !! Epub.tmp_name L = None →
  Epub.write_error L file_content = None →
  Epub.close_error L = None →
  Epub.parse_epub L file_content = Raise e →
  Epub.epub_to_text L file_content disk =
  match Epub.unlink_error L (Epub.tmp_name L) with
  | None => (disk, Return ("处理EPUB文件时出错: " ++ exn_str e))
  | Some e' => (<[Epub.tmp_name L := file_content]> disk, Raise e')
  end.
Proof.
  intros Hc Hd Hw Hcl Hp.
  rewrite epub_to_text_written by done.
  rewrite epub_try_written by done. simpl. by rewrite Hcl, Hp.
Qed.

Lemma epub_unreadable_file_reported_witness :
  Epub.epub_to_text Demo.epub_libs (Demo.b "junk") Demo.notes =
  (Demo.notes, Return ("处理EPUB文件时出错: " ++ "File is not a zip file")).
Proof.
  apply (epub_unreadable_file_reported Demo.epub_libs (Demo.b "junk") Demo.notes
           (mkExn "BadZipFile" "File is not a zip file")); reflexivity.
Defined.

(** X3. One document item whose markup the parser refuses ([e]) makes the
    whole conversion fail: the call returns the error message for [e] and
    nothing of the text of the items before it, even though those were
    extracted; the temporary file is removed.  (Should [os.unlink] raise,
    its exception reaches the caller instead and the file stays.) *)
Theorem epub_bad_item_aborts (L : Epub.Libs) (file_content : bytes)
    (disk : gmap string bytes) (book : Epub.EpubBook)
    (before after : list Epub.EpubItem) (bad : Epub.EpubItem) (e : Exn) :
  Epub.create_error L = None →
  disk !! Epub.tmp_name L = None →
  Epub.write_error L file_content = None →
  Epub.close_error L = None →
  Epub.parse_epub L file_content = Return book →
  Epub.get_items book = (before ++ bad :: after)%list →
  (∀ item, item ∈ before → Epub.is_document item = true → Epub.parses L item) →
  Epub.get_type bad = Epub.ITEM_DOCUMENT →
  Epub.BeautifulSoup L (Epub.get_content bad) "html.parser" = Raise e →
  Epub.epub_to_text L file_content disk =
  match Epub.unlink_error L (Epub.tmp_name L) with
  | None => (disk, Return ("处理EPUB文件时出错: " ++ exn_str e))
  | Some e' => (<[Epub.tmp_name L := file_content]> disk, Raise e')
  end.
Proof.
  intros Hc Hd Hw Hcl Hp Hitems Hbefore Hdoc Hbad.
  rewrite epub_to_text_written by done.
  rewrite epub_try_written by done. simpl. rewrite Hcl, Hp, Hitems.
  rewrite bind_run, for_each_app, bind_run.
  rewrite items_loop_readable by done. simpl.
  rewrite bind_run. unfold Epub.item_step at 1.
  rewrite decide_True by done.
  rewrite bind_run. unfold call. by rewrite Hbad.
Qed.

Lemma epub_bad_item_aborts_witness :
  Epub.epub_to_text Demo.epub_libs_strict Demo.broken_epub_file Demo.notes =
  (Demo.notes, Return ("处理EPUB文件时出错: " ++ "malformed start tag")).
Proof.
  apply (epub_bad_item_aborts Demo.epub_libs_strict Demo.broken_epub_file
           Demo.notes Demo.broken_book [Demo.chapter1] [Demo.chapter2]
           Demo.chapter_broken Demo.ParserRejectedMarkup); try reflexivity.
  intros item Hin _. apply list_elem_of_singleton in Hin as ->.
  eexists. reflexivity.
Defined.

(** X4. When closing the temporary file raises [e] (the content was
    written), the call reports [e] and still removes the file: at that
    point [tmp_path] is set, unlike when the write itself raises.
    (Should [os.unlink] raise, its exception reaches the caller instead
    and the file stays.) *)
Theorem epub_close_failure_cleans_up (L : Epub.Libs) (file_content : bytes)
    (disk : gmap string bytes) (e : Exn) :
  Epub.create_error L = None →
  disk !! Epub.tmp_name L = None →
  Epub.write_error L file_content = None →
  Epub.close_error L = Some e →
  Epub.epub_to_text L file_content disk =
  match Epub.unlink_error L (Epub.tmp_name L) with
  | None => (disk, Return ("处理EPUB文件时出错: " ++ exn_str e))
  | Some e' => (<[Epub.tmp_name L := file_content]> disk, Raise e')
  end.
Proof.
  intros Hc Hd Hw Hcl.
  rewrite epub_to_text_written by done.
  rewrite epub_try_written by done. simpl. by rewrite Hcl.
Qed.

Lemma epub_close_failure_cleans_up_witness :
  Epub.epub_to_text Demo.epub_libs_close_fails Demo.epub_file Demo.notes =
  (Demo.notes, Return ("处理EPUB文件时出错: " ++ "[Errno 5] Input/output error")).
Proof.
  apply (epub_close_failure_cleans_up Demo.epub_libs_close_fails Demo.epub_file
           Demo.notes Demo.EIO); reflexivity.
Defined.

(** ** PDF: failures inside the loops *)

Section PdfPaths.
Import Pdf.
Variable L : Libs.

Lemma for_each_cons {S A B} (x : A) (l : list A) (body : A → B → M S B) acc s :
  for_each (x :: l) body acc s = (body x acc ≫= for_each l body) s.
Proof. done. Qed.

Lemma enumerate_from_cons {A} (x : A) (l : list A) i :
  enumerate_from i (x :: l) = (i, x) :: enumerate_from (S i) l.
Proof. done. Qed.

(** A turn of the OCR loop on a page that cannot be read: the exception
    leaves the turn before the sink is told anything. *)
Lemma ocr_step_fails (div : Z → Z → result Q) (pb : ProgressBar) (N : Z)
    (k : nat) (p : Page) (e : Exn) acc log :
  page_ocr L p = Raise e →
  ∃ tail, ocr_step L div pb N (k, p) acc log = ((log ++ tail)%list, Raise e) ∧
          progress_values tail = [].
Proof.
  unfold page_ocr, ocr_step. intros Hp.
  rewrite bind_run. unfold call at 1.
  destruct (get_pixmap p 300) as [pix|e1].
  - simpl. rewrite bind_run. unfold call at 1.
    destruct (Image_frombytes L "RGB" _ _) as [img|e2].
    + simpl. rewrite bind_run. unfold image_to_string at 1. rewrite Hp.
      exists [EvOcr img "chi_sim+eng"]. done.
    + injection Hp as ->. exists []. by rewrite app_nil_r.
  - injection Hp as ->. exists []. by rewrite app_nil_r.
Qed.

(** The values told for pages [i+1 .. i+n] of [N] are the quotients that
    line 86 computes. *)
Lemma quotients_told (N n i : nat) :
  (i + n ≤ N)%nat →
  Forall2 (λ k v, truediv (Z.of_nat k) (Z.of_nat N) = Return v)
    (seq (S i) n)
    (map (λ k, quotient (Z.of_nat k + 1) (Z.of_nat N)) (seq i n)).
Proof.
  revert i. induction n as [|n IH]; intros i Hi; simpl; constructor.
  - destruct (progress_in_range i N ltac:(lia)) as [Hdiv _].
    by replace (Z.of_nat (S i)) with (Z.of_nat i + 1)%Z by lia.
  - apply IH. lia.
Qed.

End PdfPaths.

(** X5. When the text of one page cannot be extracted ([get_text] raises
    [e]), [pdf_to_text] returns the error message for [e] and an empty
    table of contents: the text of the pages before it and the table of
    contents, both already computed, are dropped. *)
Theorem pdf_to_text_page_failure (L : Pdf.Libs) (file_content : bytes)
    (toc : list Pdf.TocEntry) (before after : list Pdf.Page) (p : Pdf.Page)
    (texts : list string) (e : Exn) (S : Type) (s : S) :
  Pdf.opens L file_content toc (before ++ p :: after) →
  Forall2 (λ q t, Pdf.get_text q = Return t) before texts →
  Pdf.get_text p = Raise e →
  Pdf.pdf_to_text L file_content s =
  (s, Return ("处理PDF文件时出错: " ++ exn_str e, "")).
Proof.
  intros Ho Ht Hp. unfold Pdf.pdf_to_text, try_except.
  rewrite (pdf_to_text_try_opens L file_content toc _ s Ho).
  rewrite bind_run, for_each_app, bind_run.
  rewrite (text_loop_run before texts "" s Ht).
  simpl. rewrite !bind_run. unfold call. by rewrite Hp.
Qed.

Lemma pdf_to_text_page_failure_witness :
  Pdf.pdf_to_text Demo.pdf_libs_damaged Demo.damaged_pdf_file tt =
  (tt, Return ("处理PDF文件时出错: " ++ "Failed to open stream", "")).
Proof.
  apply (pdf_to_text_page_failure Demo.pdf_libs_damaged Demo.damaged_pdf_file
    Demo.toc [Demo.page "one"] [Demo.page "three"] Demo.damaged_page ["one"]
    Demo.FileDataError unit tt).
  - reflexivity.
  - repeat constructor.
  - reflexivity.
Defined.

(** X6. When a page cannot be rasterised or recognised ([e]), [pdf_ocr]
    returns the error message for [e] and an empty table of contents, and
    the text recognised so far is dropped; but the progress sink has
    already been told one value for each of the [k] pages before the
    failing one, the quotients [1 / N, ..., k / N] of line 86, and is
    told nothing more: the progress stays where it was. *)
Theorem pdf_ocr_page_failure (L : Pdf.Libs) (file_content : bytes)
    (toc : list Pdf.TocEntry) (before after : list Pdf.Page) (p : Pdf.Page)
    (texts : list string) (e : Exn) (log : list Pdf.Event) :
  Pdf.opens L file_content toc (before ++ p :: after) →
  Forall2 (λ q t, Pdf.page_ocr L q = Return t) before texts →
  Pdf.page_ocr L p = Raise e →
  ∃ trace,
    Pdf.pdf_ocr L file_content Pdf.st_progress_bar log =
      ((log ++ trace)%list, Return ("OCR处理PDF时出错: " ++ exn_str e, "")) ∧
    Forall2
      (λ i v, truediv (Z.of_nat i)
                (Z.of_nat (length (before ++ p :: after))) = Return v)
      (seq 1 (length before)) (Pdf.progress_values trace).
Proof.
  intros Ho Ht Hp.
  set (N := length (before ++ p :: after)).
  assert (0 + length before ≤ N)%nat as HN.
  { unfold N. rewrite length_app. lia. }
  destruct (ocr_step_fails L truediv Pdf.st_progress_bar (Z.of_nat N)
              (0 + length before) p e
              ("" ++ concat_all (map Pdf.page_block (enumerate_from 0 texts)))
              (log ++ flat_map (Pdf.page_events L N) (enumerate_from 0 before))
              Hp) as (tail & Hstep & Htail).
  exists (flat_map (Pdf.page_events L N) (enumerate_from 0 before) ++ tail)%list.
  split.
  - unfold Pdf.pdf_ocr, Pdf.pdf_ocr_with, try_except.
    rewrite (pdf_ocr_try_opens L truediv file_content toc _ _ log Ho).
    fold N. rewrite bind_run. unfold enumerate.
    rewrite enumerate_from_app, for_each_app, bind_run.
    rewrite (ocr_loop_run L N 0 before texts "" log Ht HN).
    rewrite enumerate_from_cons, for_each_cons, bind_run, Hstep.
    by rewrite app_assoc.
  - unfold Pdf.progress_values in *. rewrite omap_app, Htail, app_nil_r.
    fold (Pdf.progress_values
            (flat_map (Pdf.page_events L N) (enumerate_from 0 before))).
    rewrite (trace_progress_values L N 0 before texts Ht).
    by apply quotients_told.
Qed.

Lemma pdf_ocr_page_failure_witness :
  ∃ trace,
    Pdf.pdf_ocr Demo.pdf_libs_damaged Demo.damaged_pdf_file
      Pdf.st_progress_bar [] =
      (trace, Return ("OCR处理PDF时出错: " ++ "Failed to open stream", "")) ∧
    Pdf.progress_values trace = [(6004799503160661 # 18014398509481984)%Q].
Proof.
  destruct (pdf_ocr_page_failure Demo.pdf_libs_damaged Demo.damaged_pdf_file
    Demo.toc [Demo.page "one"] [Demo.page "three"] Demo.damaged_page ["one"]
    Demo.FileDataError []) as (trace & Hrun & Hvalues).
  - reflexivity.
  - repeat constructor.
  - reflexivity.
  - exists trace. split; [exact Hrun|].
    injection Hrun as <-. vm_compute. reflexivity.
Defined.

(** X7. A progress sink that raises ([e]) when it is told a value stops
    [pdf_ocr] after the first page: the engine has been started once, on
    the first page, the text it recognised is dropped, no other page is
    processed, and the call returns the error message for [e]. *)
Theorem pdf_ocr_sink_failure (L : Pdf.Libs) (file_content : bytes)
    (toc : list Pdf.TocEntry) (p : Pdf.Page) (after : list Pdf.Page)
    (t : string) (progress_bar : Pdf.ProgressBar) (e : Exn)
    (log : list Pdf.Event) :
  Pdf.opens L file_content toc (p :: after) →
  Pdf.page_ocr L p = Return t →
  (∀ v log', Pdf.progress progress_bar v log' = (log', Raise e)) →
  ∃ img,
    Pdf.page_image L p = Return img ∧
    Pdf.pdf_ocr L file_content progress_bar log =
      ((log ++ [Pdf.EvOcr img "chi_sim+eng"])%list,
       Return ("OCR处理PDF时出错: " ++ exn_str e, "")).
Proof.
  intros Ho Hp Hsink.
  destruct (page_ocr_image L p t Hp) as [img Himg]. exists img.
  split; [done|].
  destruct (progress_in_range 0 (length (p :: after)) ltac:(simpl; lia))
    as [Hdiv _].
  unfold Pdf.pdf_ocr, Pdf.pdf_ocr_with, try_except.
  rewrite (pdf_ocr_try_opens L truediv file_content toc _ _ log Ho).
  rewrite bind_run. unfold enumerate.
  rewrite enumerate_from_cons, for_each_cons, bind_run.
  unfold Pdf.ocr_step at 1.
  unfold Pdf.page_ocr, Pdf.page_image in *.
  rewrite bind_run. unfold call at 1.
  destruct (Pdf.get_pixmap p 300) as [pix|e1]; [|done].
  cbv beta iota. rewrite Himg in Hp.
  rewrite bind_run. unfold call at 1. rewrite Himg. cbv beta iota.
  rewrite bind_run. unfold Pdf.image_to_string at 1. rewrite Hp. cbv beta iota.
  rewrite bind_run. unfold mret at 1, M_ret at 1. cbv beta iota.
  rewrite bind_run. unfold call at 1. rewrite Hdiv. cbv beta iota.
  rewrite bind_run, Hsink. done.
Qed.

Lemma pdf_ocr_sink_failure_witness :
  ∃ img,
    Pdf.page_image Demo.pdf_libs (Demo.page "one") = Return img ∧
    Pdf.pdf_ocr Demo.pdf_libs Demo.pdf_file Demo.broken_bar [] =
      ([Pdf.EvOcr img "chi_sim+eng"],
       Return ("OCR处理PDF时出错: " ++ "[Errno 32] Broken pipe", "")).
Proof.
  apply (pdf_ocr_sink_failure Demo.pdf_libs Demo.pdf_file Demo.toc
    (Demo.page "one") [Demo.page "two"; Demo.page "three"] "one"
    Demo.broken_bar Demo.BrokenPipe []).
  - reflexivity.
  - reflexivity.
  - intros v log'. reflexivity.
Defined.

(** ** The page: session state across runs, and what is shown *)

Section Rendering.
Import App.
Variable L : Libs.

Ltac render_steps Hpt Hfn Htoc Hsec :=
  repeat (rewrite bind_run; unfold get_slot, emit, modify, call; simpl;
          rewrite ?Hpt, ?Hfn, ?Htoc, ?Hsec; simpl).

(** Lines 162-186 on a session whose main text is empty or [None]. *)
Lemma render_nothing (σ : gmap string PyVal) (v : PyVal) :
  σ !! "processed_text" = Some v → truthy v = false →
  render L (mkPage σ []) = (mkPage σ [], Return tt).
Proof.
  intros Hpt Ht. unfold render. rewrite bind_run. unfold get_slot. simpl.
  by rewrite Hpt, Ht.
Qed.

(** Lines 162-186 on a session that holds a main text and its file name. *)
Lemma render_result (σ : gmap string PyVal) (text fname : string)
    (vtoc vsec : PyVal) :
  σ !! "processed_text" = Some (PyStr text) → str_truthy text = true →
  σ !! "file_name" = Some (PyStr fname) →
  σ !! "toc" = Some vtoc → σ !! "secondary_text" = Some vsec →
  render L (mkPage σ []) =
  (mkPage σ
     ([Success "处理完成！"] ++
      (if truthy vtoc then [Expander "查看提取的目录" false [Text vtoc]] else []) ++
      [Subheader "处理结果预览"; TextArea "内容" (PyStr text) 400;
       DownloadButton "下载主结果文件 (.txt)" (String.list_byte_of_string text)
         (PyStr fname) "text/plain"] ++
      match vsec with
      | PyStr extra =>
          if str_truthy extra then
            [Subheader "额外的纯文本提取结果";
             TextArea "内容 (纯文本提取)" (PyStr extra) 200;
             DownloadButton "下载纯文本提取文件 (.txt)"
               (String.list_byte_of_string extra)
               (PyStr ((splitext L fname).1 ++ "_extra_text.txt")) "text/plain"]
          else []
      | PyNone => []
      end)%list, Return tt).
Proof.
  intros Hpt Ht Hfn Htoc Hsec. unfold render, render_secondary.
  rewrite bind_run. unfold get_slot at 1. simpl. rewrite Hpt. simpl. rewrite Ht.
  rewrite bind_run. unfold emit at 1, modify. simpl.
  rewrite bind_run. unfold get_slot at 1. simpl. rewrite Htoc.
  rewrite bind_run.
  destruct (truthy vtoc) eqn:Ttoc.
  - rewrite bind_run. unfold get_slot at 1. simpl. rewrite Htoc.
    unfold emit at 1, modify. simpl.
    destruct vsec as [|extra]; [|destruct (str_truthy extra) eqn:Tsec];
      render_steps Hpt Hfn Htoc Hsec; rewrite ?Tsec;
      render_steps Hpt Hfn Htoc Hsec; done.
  - simpl.
    destruct vsec as [|extra]; [|destruct (str_truthy extra) eqn:Tsec];
      render_steps Hpt Hfn Htoc Hsec; rewrite ?Tsec;
      render_steps Hpt Hfn Htoc Hsec; done.
Qed.

Lemma render_ok (σ : gmap string PyVal) :
  slots_present σ → named_result σ →
  ∃ page, render L (mkPage σ []) = (mkPage σ page, Return tt).
Proof.
  intros ([vpt Hpt] & [vfn Hfn] & [vtoc Htoc] & [vsec Hsec]) Hn.
  destruct (truthy vpt) eqn:Ht.
  - destruct (Hn vpt Hpt Ht) as [fname Hfn'].
    destruct vpt as [|text]; [done|].
    eexists. by apply (render_result σ text fname vtoc vsec).
  - eexists. by apply (render_nothing σ vpt).
Qed.

Variable W : Widgets.

(** Whatever a run of lines 100-160 does, it leaves a session state in
    which the four slots exist and a result that shows has a name. *)
Lemma script_well_formed σ d ev :
  named_result σ →
  slots_present (session_state (script L W (mkWorld σ d ev)).1) ∧
  named_result (session_state (script L W (mkWorld σ d ev)).1).
Proof.
  intros Hn.
  destruct (script_outcome L W σ d ev) as (σ' & d' & ev' & r & Hrun & Hcase).
  rewrite Hrun. simpl.
  destruct Hcase as [(e & _ & -> & _)|[(_ & _ & _ & -> & _)|
                     (_ & _ & text & fname & H1 & H2 & H3 & H4)]].
  - split; [apply init_all_present | by apply init_all_named].
  - split; [apply init_all_present | by apply init_all_named].
  - split.
    + unfold slots_present. rewrite H1, H2. eauto.
    + intros v _ _. eauto.
Qed.

(** A run in which the upload widget answers and no conversion is
    triggered leaves a world whose slots exist as it is. *)
Lemma script_idle σ d ev :
  (∃ u, file_uploader W "上传你的 EPUB 或 PDF 文件" ["epub"; "pdf"] = Return u) →
  conversion_triggered W = false → slots_present σ →
  script L W (mkWorld σ d ev) = (mkWorld σ d ev, Return tt).
Proof.
  intros [u Hu] Hno Hp.
  rewrite (script_uploaded L W u _ _ _ Hu), (init_all_id σ Hp).
  unfold conversion_triggered in Hno. rewrite Hu in Hno.
  destruct u as [f|]; [|done].
  destruct (str_endswith (name f) ".epub").
  - unfold epub_branch. by rewrite Hno.
  - destruct (str_endswith (name f) ".pdf"); [|done].
    destruct (decide (radio W "选择PDF处理模式:" = _)).
    + unfold pdf_text_branch. by rewrite Hno.
    + unfold pdf_ocr_branch. by rewrite Hno.
Qed.

(** A run raises only what lines 100-160 raise: on the state they leave,
    lines 162-186 do not raise. *)
Lemma run_outcome σ d ev :
  named_result σ →
  ∃ σ' d' ev',
    slots_present σ' ∧ named_result σ' ∧
    ((∃ page, run L W (mkWorld σ d ev) = (mkWorld σ' d' ev', Return page)) ∨
     (∃ e, run L W (mkWorld σ d ev) = (mkWorld σ' d' ev', Raise e) ∧
        (file_uploader W "上传你的 EPUB 或 PDF 文件" ["epub"; "pdf"] = Raise e ∨
         Epub.unlink_error (epub_libs L) (Epub.tmp_name (epub_libs L)) = Some e))).
Proof.
  intros Hn. pose proof (script_well_formed σ d ev Hn) as [Hp Hn'].
  destruct (script_outcome L W σ d ev) as (σ' & d' & ev' & r & Hrun & Hcase).
  rewrite Hrun in Hp, Hn'. simpl in Hp, Hn'.
  exists σ', d', ev'. split; [done|]. split; [done|].
  unfold run. rewrite Hrun.
  destruct (render_ok σ' Hp Hn') as [page Hr].
  destruct Hcase as [(e & -> & _ & Hsrc)|[(-> & _)|(-> & _)]].
  - right. by eauto.
  - left. simpl. rewrite Hr. by eauto.
  - left. simpl. rewrite Hr. by eauto.
Qed.

End Rendering.

Lemma runs_outcome (L : App.Libs) (interactions : list App.Widgets) :
  ∀ σ d ev, App.named_result σ →
  ∀ w e, App.runs L interactions (App.mkWorld σ d ev) = (w, Raise e) →
  (∃ W, W ∈ interactions ∧
        App.file_uploader W "上传你的 EPUB 或 PDF 文件" ["epub"; "pdf"] = Raise e) ∨
  Epub.unlink_error (App.epub_libs L) (Epub.tmp_name (App.epub_libs L)) = Some e.
Proof.
  induction interactions as [|W rest IH]; intros σ d ev Hn w e Hruns.
  - done.
  - simpl in Hruns.
    destruct (run_outcome L W σ d ev Hn)
      as (σ' & d' & ev' & _ & Hn' & [[page Hr]|(e' & Hr & Hsrc)]);
      rewrite Hr in Hruns.
    + destruct rest as [|W' rest]; [done|].
      destruct (IH σ' d' ev' Hn' w e Hruns) as [(W'' & Hin & Hup)|Hunlink].
      * left. exists W''. split; [by right | done].
      * by right.
    + injection Hruns as <- <-.
      destruct Hsrc as [Hup|Hunlink]; [|by right].
      left. exists W. split; [by left | done].
Qed.

(** The two PDF functions on a document that answers every call. *)
Lemma pdf_ocr_run (L : Pdf.Libs) (content : bytes) (toc : list Pdf.TocEntry)
    (ps : list Pdf.Page) (texts : list string) (log : list Pdf.Event) :
  Pdf.opens L content toc ps →
  Forall2 (λ p t, Pdf.page_ocr L p = Return t) ps texts →
  Pdf.pdf_ocr L content Pdf.st_progress_bar log =
  ((log ++ flat_map (Pdf.page_events L (length ps)) (enumerate_from 0 ps))%list,
   Return ("" ++ concat_all (map Pdf.page_block (enumerate_from 0 texts)),
           Pdf.expected_toc_text toc)).
Proof.
  intros Ho Ht. unfold Pdf.pdf_ocr, Pdf.pdf_ocr_with, try_except.
  rewrite (pdf_ocr_try_opens L truediv content toc ps _ log Ho).
  rewrite bind_run. unfold enumerate.
  by rewrite (ocr_loop_run L (length ps) 0 ps texts "" log Ht).
Qed.

Lemma pdf_to_text_open_fails {S} (L : Pdf.Libs) (content : bytes) (e : Exn) (s : S) :
  Pdf.fitz_open L content "pdf" = Raise e →
  Pdf.pdf_to_text L content s =
  (s, Return ("处理PDF文件时出错: " ++ exn_str e, "")).
Proof.
  intros Ho. unfold Pdf.pdf_to_text, try_except, Pdf.pdf_to_text_try.
  rewrite bind_run. unfold call. by rewrite Ho.
Qed.

(** X8. Whatever the user does in a run, and whether lines 100-160 return
    or raise, they leave a session state in which all four slots exist and
    in which a main text that shows (a non-empty string) comes with a
    string file name, provided the state they start from has the second
    property. *)
Theorem script_keeps_session_well_formed (L : App.Libs) (W : App.Widgets)
    (σ : gmap string App.PyVal) (d : gmap string bytes) (ev : list Pdf.Event) :
  App.named_result σ →
  App.slots_present (App.session_state (App.script L W (App.mkWorld σ d ev)).1) ∧
  App.named_result (App.session_state (App.script L W (App.mkWorld σ d ev)).1).
Proof. apply script_well_formed. Qed.

Lemma script_keeps_session_well_formed_witness :
  App.slots_present (App.session_state
    (App.script Demo.app_libs Demo.txt_upload
       (App.mkWorld Demo.old_session ∅ [])).1) ∧
  App.named_result (App.session_state
    (App.script Demo.app_libs Demo.txt_upload
       (App.mkWorld Demo.old_session ∅ [])).1).
Proof.
  apply (script_keeps_session_well_formed Demo.app_libs Demo.txt_upload
           Demo.old_session ∅ []).
  intros v Hv Ht. eexists. reflexivity.
Defined.

(** X9. A session that starts with an empty session state ends in an
    exception only when the upload widget raises it (Streamlit refusing
    the extension of the upload) or [os.unlink] raises it inside
    [epub_to_text]: lines 162-186 never raise, because the slots they read
    always exist, [encode] is only called on strings and
    [os.path.splitext] only on a string file name. *)
Theorem session_raises_only_from_outside (L : App.Libs)
    (interactions : list App.Widgets)
    (d : gmap string bytes) (ev : list Pdf.Event) (w : App.World) (e : Exn) :
  App.runs L interactions (App.mkWorld ∅ d ev) = (w, Raise e) →
  (∃ W, W ∈ interactions ∧
        App.file_uploader W "上传你的 EPUB 或 PDF 文件" ["epub"; "pdf"] = Raise e) ∨
  Epub.unlink_error (App.epub_libs L) (Epub.tmp_name (App.epub_libs L)) = Some e.
Proof.
  apply runs_outcome. intros v Hv. by rewrite lookup_empty in Hv.
Qed.

Lemma session_raises_only_from_outside_witness :
  (∃ W, W ∈ [Demo.corrupt_pdf_click; Demo.txt_upload; Demo.idle] ∧
        App.file_uploader W "上传你的 EPUB 或 PDF 文件" ["epub"; "pdf"] =
          Raise Demo.InvalidFileExtension) ∨
  Epub.unlink_error Demo.epub_libs "/tmp/tmpk3x9.epub" =
    Some Demo.InvalidFileExtension.
Proof.
  apply (session_raises_only_from_outside Demo.app_libs
           [Demo.corrupt_pdf_click; Demo.txt_upload; Demo.idle] ∅ []
           (App.runs Demo.app_libs
              [Demo.corrupt_pdf_click; Demo.txt_upload; Demo.idle]
              (App.mkWorld ∅ ∅ [])).1 Demo.InvalidFileExtension).
  vm_compute. reflexivity.
Defined.

(** X10. The result stays on the page: when a run is followed by a run in
    which the upload widget answers and no conversion is triggered (no
    file, a file whose name selects no branch, or no button pressed), the
    second run leaves the world as the first left it and lines 162-186
    show the same elements again. *)
Theorem result_persists_across_reruns (L : App.Libs) (W1 W2 : App.Widgets)
    (w w1 : App.World) (page : list App.Element) :
  App.run L W1 w = (w1, Return page) →
  (∃ u, App.file_uploader W2 "上传你的 EPUB 或 PDF 文件" ["epub"; "pdf"] = Return u) →
  App.conversion_triggered W2 = false →
  App.run L W2 w1 = (w1, Return page).
Proof.
  intros Hrun Hup Hno. destruct w as [σ d ev]. unfold App.run in Hrun.
  destruct (script_outcome L W1 σ d ev) as (σ' & d' & ev' & r & Hs & Hcase).
  rewrite Hs in Hrun.
  assert (r = Return tt ∧ App.slots_present σ') as [-> Hp].
  { destruct Hcase as [(e & -> & _)|[(-> & _ & _ & -> & _)|
                       (-> & _ & text & fname & H1 & H2 & H3 & H4)]].
    - done.
    - split; [done | apply init_all_present].
    - split; [done|]. unfold App.slots_present. rewrite H1, H2. eauto. }
  simpl in Hrun.
  destruct (App.render L (App.mkPage σ' [])) as [pg [[]|e]] eqn:Hr;
    [|by destruct pg].
  injection Hrun as <- <-.
  unfold App.run. rewrite (script_idle L W2 σ' d' ev' Hup Hno Hp). simpl.
  by rewrite Hr.
Qed.

Lemma result_persists_across_reruns_witness :
  ∃ w1 page,
    App.run Demo.app_libs Demo.corrupt_pdf_click (App.mkWorld ∅ ∅ []) =
      (w1, Return page) ∧
    App.run Demo.app_libs Demo.idle w1 = (w1, Return page).
Proof.
  exists (App.run Demo.app_libs Demo.corrupt_pdf_click (App.mkWorld ∅ ∅ [])).1.
  exists [App.Success "处理完成！"; App.Subheader "处理结果预览";
     App.TextArea "内容"
       (App.PyStr ("处理PDF文件时出错: " ++ "Failed to open stream")) 400;
     App.DownloadButton "下载主结果文件 (.txt)"
       (String.list_byte_of_string
          ("处理PDF文件时出错: " ++ "Failed to open stream"))
       (App.PyStr ("scan" ++ "_text.txt")) "text/plain"].
  assert (App.run Demo.app_libs Demo.corrupt_pdf_click (App.mkWorld ∅ ∅ []) =
          ((App.run Demo.app_libs Demo.corrupt_pdf_click (App.mkWorld ∅ ∅ [])).1,
           Return [App.Success "处理完成！"; App.Subheader "处理结果预览";
     App.TextArea "内容"
       (App.PyStr ("处理PDF文件时出错: " ++ "Failed to open stream")) 400;
     App.DownloadButton "下载主结果文件 (.txt)"
       (String.list_byte_of_string
          ("处理PDF文件时出错: " ++ "Failed to open stream"))
       (App.PyStr ("scan" ++ "_text.txt")) "text/plain"])) as Hrun.
  { vm_compute. reflexivity. }
  split; [exact Hrun|].
  apply (result_persists_across_reruns Demo.app_libs Demo.corrupt_pdf_click
           Demo.idle (App.mkWorld ∅ ∅ []) _ _ Hrun).
  - exists None. reflexivity.
  - reflexivity.
Defined.

(** X12. A PDF that cannot be opened is presented as a finished
    conversion: after text extraction is started on it, lines 162-186 show
    the success message, the error message as the result text, and a
    download of the error message under the name of a result file; no
    table of contents and no secondary result are shown. *)
Theorem pdf_error_shown_as_result (L : App.Libs) (W : App.Widgets)
    (f : App.UploadedFile) (e : Exn)
    (σ : gmap string App.PyVal) (d : gmap string bytes) (ev : list Pdf.Event) :
  App.file_uploader W "上传你的 EPUB 或 PDF 文件" ["epub"; "pdf"] = Return (Some f) →
  App.str_endswith (App.name f) ".epub" = false →
  App.str_endswith (App.name f) ".pdf" = true →
  App.radio W "选择PDF处理模式:" = "提取文本 (适用于文本型PDF)" →
  App.button W "开始提取文本" = true →
  Pdf.fitz_open (App.pdf_libs L) (App.getvalue f) "pdf" = Raise e →
  (App.run L W (App.mkWorld σ d ev)).2 =
  Return
    [App.Success "处理完成！"; App.Subheader "处理结果预览";
     App.TextArea "内容" (App.PyStr ("处理PDF文件时出错: " ++ exn_str e)) 400;
     App.DownloadButton "下载主结果文件 (.txt)"
       (String.list_byte_of_string ("处理PDF文件时出错: " ++ exn_str e))
       (App.PyStr ((App.splitext L (App.name f)).1 ++ "_text.txt")) "text/plain"].
Proof.
  intros Hf He Hp Hmode Hb Ho.
  unfold App.run. rewrite (script_uploaded L W _ _ _ _ Hf).
  rewrite He, Hp, decide_True by done.
  rewrite (pdf_text_branch_run L W _ _ _ _ _
             ("处理PDF文件时出错: " ++ exn_str e) "" Hb)
    by (by rewrite (pdf_to_text_open_fails _ _ e tt Ho)).
  simpl.
  rewrite (render_result L _ ("处理PDF文件时出错: " ++ exn_str e)
             ((App.splitext L (App.name f)).1 ++ "_text.txt")
             (App.PyStr "") App.PyNone); [done|..].
  - by simplify_map_eq.
  - by rewrite str_app_cons.
  - by simplify_map_eq.
  - by simplify_map_eq.
  - by simplify_map_eq.
Qed.

Lemma pdf_error_shown_as_result_witness :
  (App.run Demo.app_libs Demo.corrupt_pdf_click (App.mkWorld ∅ ∅ [])).2 =
  Return
    [App.Success "处理完成！"; App.Subheader "处理结果预览";
     App.TextArea "内容"
       (App.PyStr ("处理PDF文件时出错: " ++ "Failed to open stream")) 400;
     App.DownloadButton "下载主结果文件 (.txt)"
       (String.list_byte_of_string
          ("处理PDF文件时出错: " ++ "Failed to open stream"))
       (App.PyStr ("scan" ++ "_text.txt")) "text/plain"].
Proof.
  apply (pdf_error_shown_as_result Demo.app_libs Demo.corrupt_pdf_click
           (App.mkUpload "scan.pdf" (Demo.b "not a pdf")) Demo.FileDataError
           ∅ ∅ []); reflexivity.
Defined.

(** X13. OCR of a PDF without pages shows no result at all: the call
    succeeds with the empty text, so lines 162-186 show nothing, not even
    the table of contents that was extracted and stored; the progress
    element was created at 0 and never moved. *)
Theorem ocr_of_empty_pdf_shows_nothing (L : App.Libs) (W : App.Widgets)
    (f : App.UploadedFile) (toc : list Pdf.TocEntry)
    (σ : gmap string App.PyVal) (d : gmap string bytes) (ev : list Pdf.Event) :
  App.file_uploader W "上传你的 EPUB 或 PDF 文件" ["epub"; "pdf"] = Return (Some f) →
  App.str_endswith (App.name f) ".epub" = false →
  App.str_endswith (App.name f) ".pdf" = true →
  App.radio W "选择PDF处理模式:" ≠ "提取文本 (适用于文本型PDF)" →
  App.button W "开始OCR识别" = true →
  Pdf.opens (App.pdf_libs L) (App.getvalue f) toc [] →
  ∃ σ',
    App.run L W (App.mkWorld σ d ev) =
      (App.mkWorld σ' d (ev ++ [Pdf.EvProgress 0])%list, Return []) ∧
    σ' !! "processed_text" = Some (App.PyStr "") ∧
    σ' !! "toc" = Some (App.PyStr (Pdf.expected_toc_text toc)).
Proof.
  intros Hf He Hp Hmode Hb Ho.
  unfold App.run. rewrite (script_uploaded L W _ _ _ _ Hf).
  rewrite He, Hp, decide_False by done.
  rewrite (pdf_ocr_branch_run L W _ _ _ _ _ (ev ++ [Pdf.EvProgress 0])%list
             "" (Pdf.expected_toc_text toc) "" (Pdf.expected_toc_text toc) Hb).
  - eexists. split; [|split].
    + simpl. rewrite (render_nothing L _ (App.PyStr "")); [done| |done].
      by simplify_map_eq.
    + by simplify_map_eq.
    + by simplify_map_eq.
  - rewrite (pdf_ocr_run _ _ toc [] [] _ Ho) by constructor.
    simpl. by rewrite app_nil_r.
  - unfold Pdf.pdf_to_text, try_except.
    by rewrite (pdf_to_text_try_opens _ _ toc [] tt Ho).
Qed.

Lemma ocr_of_empty_pdf_shows_nothing_witness :
  ∃ σ',
    App.run Demo.app_libs (Demo.ocr_click Demo.empty_pdf_file)
      (App.mkWorld ∅ ∅ []) =
      (App.mkWorld σ' ∅ [Pdf.EvProgress 0], Return []) ∧
    σ' !! "processed_text" = Some (App.PyStr "") ∧
    σ' !! "toc" = Some (App.PyStr (Pdf.expected_toc_text [])).
Proof.
  apply (ocr_of_empty_pdf_shows_nothing Demo.app_libs
           (Demo.ocr_click Demo.empty_pdf_file)
           (App.mkUpload "scan.pdf" Demo.empty_pdf_file) [] ∅ ∅ []);
    try reflexivity.
  vm_compute. discriminate.
Defined.

(** X14. In a run that starts OCR on a PDF with [N] pages on which every
    call answers, the progress element is told the value 0 when it is
    created, then one value per page, the quotients [1 / N, ..., N / N] of
    line 86 in this order, and nothing else; for [N >= 1] the last value
    is exactly 1. *)
Theorem ocr_run_progress_from_zero (L : App.Libs) (W : App.Widgets)
    (f : App.UploadedFile) (toc : list Pdf.TocEntry) (ps : list Pdf.Page)
    (texts : list string)
    (σ : gmap string App.PyVal) (d : gmap string bytes) (ev : list Pdf.Event) :
  App.file_uploader W "上传你的 EPUB 或 PDF 文件" ["epub"; "pdf"] = Return (Some f) →
  App.str_endswith (App.name f) ".epub" = false →
  App.str_endswith (App.name f) ".pdf" = true →
  App.radio W "选择PDF处理模式:" ≠ "提取文本 (适用于文本型PDF)" →
  App.button W "开始OCR识别" = true →
  Pdf.opens (App.pdf_libs L) (App.getvalue f) toc ps →
  Forall2 (λ p t, Pdf.page_ocr (App.pdf_libs L) p = Return t) ps texts →
  ∃ trace values,
    App.events (App.script L W (App.mkWorld σ d ev)).1 = (ev ++ trace)%list ∧
    Pdf.progress_values trace = 0%Q :: values ∧
    Forall2 (λ i v, truediv (Z.of_nat i) (Z.of_nat (length ps)) = Return v)
      (seq 1 (length ps)) values ∧
    ((1 ≤ length ps)%nat → last values = Some 1%Q).
Proof.
  intros Hf He Hp Hmode Hb Ho Ht.
  destruct (pdf_to_text_returns (App.pdf_libs L) (App.getvalue f) tt)
    as (s' & [text toc'] & Htext).
  set (N := length ps).
  exists (Pdf.EvProgress 0 ::
          flat_map (Pdf.page_events (App.pdf_libs L) N) (enumerate_from 0 ps)).
  exists (map (λ k, quotient (Z.of_nat k + 1) (Z.of_nat N)) (seq 0 N)).
  split; [|split; [|split]].
  - rewrite (script_uploaded L W _ _ _ _ Hf). rewrite He, Hp.
    rewrite decide_False by done.
    rewrite (pdf_ocr_branch_run L W _ _ _ _ _ _ _ _ text toc' Hb
               (pdf_ocr_run _ _ toc ps texts _ Ho Ht))
      by (by rewrite Htext).
    simpl. by rewrite <- app_assoc.
  - change (Pdf.progress_values (Pdf.EvProgress 0 :: ?t))
      with (0%Q :: Pdf.progress_values t).
    by rewrite (trace_progress_values _ _ 0 ps texts Ht).
  - by apply (quotients_told N N 0).
  - intros HN. destruct N as [|n]; [lia|].
    rewrite seq_S, map_app. simpl. rewrite last_snoc. f_equal.
    unfold quotient.
    replace (Z.of_nat n + 1)%Z with (Z.of_nat (S n)) by lia.
    by rewrite truediv_same by lia.
Qed.

Lemma ocr_run_progress_from_zero_witness :
  ∃ trace,
    App.events (App.script Demo.app_libs (Demo.ocr_click Demo.pdf_file)
                  (App.mkWorld ∅ ∅ [])).1 = trace ∧
    Pdf.progress_values trace =
      [0%Q; (6004799503160661 # 18014398509481984)%Q;
       (6004799503160661 # 9007199254740992)%Q; 1%Q].
Proof.
  destruct (ocr_run_progress_from_zero Demo.app_libs
              (Demo.ocr_click Demo.pdf_file)
              (App.mkUpload "scan.pdf" Demo.pdf_file) Demo.toc
              [Demo.page "one"; Demo.page "two"; Demo.page "three"]
              ["one"; "two"; "three"] ∅ ∅ [])
    as (trace & values & Hrun & Hvalues & _); try reflexivity.
  - vm_compute. discriminate.
  - repeat constructor.
  - exists trace. split; [exact Hrun|].
    simpl in Hrun. subst trace. vm_compute. reflexivity.
Defined.
